(** * gha-remove-artifacts: a shallow embedding of [src/index.js]

    The action is one orchestration script.  Its own logic (configuration
    resolution, early-terminating run pagination, the run and artifact
    filters with the shared skip counter, the deletion fan-out and the
    final [catch]) is embedded below, function by function.

    What the script delegates to its collaborators (the Actions toolkit,
    [moment], [yn], the Octokit client and the remote platform) is not part
    of the repository; it is gathered in the record [World] and every
    statement is made for an arbitrary world.

    Conventions.
    - An instant is a number of milliseconds since the epoch ([Z]); the
      [created_at] fields hold the instant [moment(...)] reads from them.
    - One invocation is observed at one clock reading [moment_now].
    - JavaScript numbers are carried as exact rationals, plus [NaN] and the
      two infinities: a literal beyond the range of doubles reads as an
      infinity and one below it as zero, as in the language; the rounding
      of the digits in between is not modelled.  The counter is an integer.
    - [Moment] is the [subtract] of the time library, for a process in UTC;
      the statements that depend on what the library does are made for the
      worlds that use it.
    - [console.log] lines are kept as structured events, one constructor
      per message of the source. *)

From Stdlib Require Import ZArith QArith Qround List String Ascii Bool Lia.
From Stdlib Require Import Permutation.
Import ListNotations.
Local Open Scope string_scope.
Local Open Scope Z_scope.
Local Open Scope list_scope.

(** ** JavaScript values, errors and results *)

Module Js.

(** The two kinds of value [readInput] can return. *)
Inductive value : Type :=
| Undefined
| Str (s : string).

(** An [Error] object: its [name] and its [message]. *)
Record Error : Type := mkError { name : string; message : string }.

(** [Error.prototype.toString]. *)
Definition toString (e : Error) : string :=
  if String.eqb (name e) "" then message e
  else if String.eqb (message e) "" then name e
  else String.append (name e) (String.append ": " (message e)).

(** A number: [NaN], a finite value, or an infinity ([Inf true] is
    [-Infinity]). *)
Inductive number : Type :=
| NaN
| Num (q : Q)
| Inf (negative : bool).

Definition isNaN (n : number) : bool :=
  match n with NaN => true | _ => false end.

(** [ToBoolean] on numbers: [NaN] and zero are falsy. *)
Definition number_truthy (n : number) : bool :=
  match n with
  | NaN => false
  | Num q => negb (Qnum q =? 0)
  | Inf _ => true
  end.

(** [ToBoolean] on [undefined] and strings: only a non-empty string is
    truthy. *)
Definition truthy (v : value) : bool :=
  match v with
  | Undefined => false
  | Str s => negb (String.eqb s "")
  end.

(** [n > c] for an integer [c]. *)
Definition gt_int (n : number) (c : Z) : bool :=
  match n with
  | NaN => false
  | Num q => c * Zpos (Qden q) <? Qnum q
  | Inf negative => negb negative
  end.

(** [n < 0]. *)
Definition negative (n : number) : bool :=
  match n with
  | NaN => false
  | Num q => Qnum q <? 0
  | Inf neg => neg
  end.

(** The number is a non-negative integer [k]. *)
Definition of_nat (k : nat) : number := Num (inject_Z (Z.of_nat k)).

(** *** [String.prototype.split] with a one-character separator *)

Fixpoint split (sep : ascii) (s : string) : list string :=
  match s with
  | EmptyString => [EmptyString]
  | String c rest =>
      if Ascii.eqb c sep then EmptyString :: split sep rest
      else match split sep rest with
           | [] => [String c EmptyString]
           | h :: t => String c h :: t
           end
  end.

(** *** [Number(string)]: the StringNumericLiteral grammar *)

(** White space and line terminators.  A string is a sequence of bytes;
    the characters beyond ASCII are read in their UTF-8 encoding. *)
Definition is_ws (c : ascii) : bool :=
  let n := nat_of_ascii c in
  ((9 <=? n) && (n <=? 13))%nat || (n =? 32)%nat.

(** The third byte of U+2000..U+200A, U+2028, U+2029 and U+202F, after
    the bytes E2 80. *)
Definition is_ws_e2_80 (c : ascii) : bool :=
  let n := nat_of_ascii c in
  ((128 <=? n) && (n <=? 138))%nat || (n =? 168)%nat || (n =? 169)%nat
  || (n =? 175)%nat.

(** The bytes after the first one of a white-space character that is not
    ASCII: what follows the character, if [c] and the start of [rest] are
    one (U+00A0, U+1680, U+2000..U+200A, U+2028, U+2029, U+202F, U+205F,
    U+3000, U+FEFF). *)
Definition after_wide_ws (c : ascii) (rest : string) : option string :=
  match nat_of_ascii c, rest with
  | 194%nat, String c1 r =>
      if (nat_of_ascii c1 =? 160)%nat then Some r else None
  | 225%nat, String c1 (String c2 r) =>
      if ((nat_of_ascii c1 =? 154) && (nat_of_ascii c2 =? 128))%nat
      then Some r else None
  | 226%nat, String c1 (String c2 r) =>
      if ((nat_of_ascii c1 =? 128)%nat && is_ws_e2_80 c2)
         || ((nat_of_ascii c1 =? 129) && (nat_of_ascii c2 =? 159))%nat
      then Some r else None
  | 227%nat, String c1 (String c2 r) =>
      if ((nat_of_ascii c1 =? 128) && (nat_of_ascii c2 =? 128))%nat
      then Some r else None
  | 239%nat, String c1 (String c2 r) =>
      if ((nat_of_ascii c1 =? 187) && (nat_of_ascii c2 =? 191))%nat
      then Some r else None
  | _, _ => None
  end.

(** The string without the white space it starts with; [fuel] bounds the
    number of characters dropped. *)
Fixpoint trim_start_fuel (fuel : nat) (s : string) : string :=
  match fuel, s with
  | S fuel', String c rest =>
      if is_ws c then trim_start_fuel fuel' rest
      else match after_wide_ws c rest with
           | Some r => trim_start_fuel fuel' r
           | None => s
           end
  | _, _ => s
  end.

Definition trim_start (s : string) : string :=
  trim_start_fuel (String.length s) s.

(** The string is white space only. *)
Definition all_ws (s : string) : bool :=
  String.eqb (trim_start s) "".

Fixpoint trim_end (s : string) : string :=
  match s with
  | EmptyString => EmptyString
  | String c rest => if all_ws s then EmptyString else String c (trim_end rest)
  end.

Definition trim (s : string) : string := trim_end (trim_start s).

(** The value of a digit in the given radix, if it is one. *)
Definition digit_value (radix : Z) (c : ascii) : option Z :=
  let n := Z.of_nat (nat_of_ascii c) in
  let v :=
    if (48 <=? n) && (n <=? 57) then Some (n - 48)
    else if (97 <=? n) && (n <=? 122) then Some (n - 87)
    else if (65 <=? n) && (n <=? 90) then Some (n - 55)
    else None in
  match v with
  | Some d => if d <? radix then Some d else None
  | None => None
  end.

(** Reads the longest prefix of digits: the value read so far, how many
    digits were read, and what is left. *)
Fixpoint read_digits (radix : Z) (acc : Z) (count : nat) (s : string)
  : Z * nat * string :=
  match s with
  | EmptyString => (acc, count, EmptyString)
  | String c rest =>
      match digit_value radix c with
      | Some d => read_digits radix (acc * radix + d) (S count) rest
      | None => (acc, count, s)
      end
  end.

(** [m * 10^e] as a rational. *)
Definition scale10 (m e : Z) : Q :=
  if 0 <=? e then inject_Z (m * 10 ^ e)
  else Qmake m (Z.to_pos (10 ^ (- e))).

(** ExponentPart, optional: the exponent, or [None] when what is left is
    not one. *)
Definition read_exponent (s : string) : option Z :=
  match s with
  | EmptyString => Some 0
  | String c rest =>
      if Ascii.eqb c "e" || Ascii.eqb c "E" then
        let '(neg, digits) :=
          match rest with
          | String "-" r => (true, r)
          | String "+" r => (false, r)
          | _ => (false, rest)
          end in
        match read_digits 10 0 0 digits with
        | (_, O, _) => None
        | (e, _, EmptyString) => Some (if neg then - e else e)
        | _ => None
        end
      else None
  end.

(** A positive value in the range of doubles: from the least literal that
    rounds to infinity on, [Infinity]; up to half the least positive
    double, zero. *)
Definition in_double_range (q : Q) : number :=
  if Qle_bool (inject_Z (2 ^ 1024 - 2 ^ 970)) q then Inf false
  else if Qle_bool q (1 # Z.to_pos (2 ^ 1075)) then Num 0
  else Num q.

(** StrUnsignedDecimalLiteral. *)
Definition unsigned_decimal (s : string) : number :=
  if String.eqb s "Infinity" then Inf false
  else
    let '(ip, ni, r1) := read_digits 10 0 0 s in
    let '(m, nf, r2) :=
      match r1 with
      | String "." r => read_digits 10 ip 0 r
      | _ => (ip, O, r1)
      end in
    match ni, nf with
    | O, O => NaN
    | _, _ =>
        match read_exponent r2 with
        | Some e => in_double_range (scale10 m (e - Z.of_nat nf))
        | None => NaN
        end
    end.

Definition negate (n : number) : number :=
  match n with
  | NaN => NaN
  | Num q => Num (Qopp q)
  | Inf neg => Inf (negb neg)
  end.

(** NonDecimalIntegerLiteral: the digits after [0x], [0o] or [0b]. *)
Definition non_decimal (radix : Z) (s : string) : number :=
  match read_digits radix 0 0 s with
  | (_, O, _) => NaN
  | (v, _, EmptyString) => in_double_range (inject_Z v)
  | _ => NaN
  end.

Definition StringToNumber (s : string) : number :=
  match trim s with
  | EmptyString => Num 0
  | String "0" (String "x" r) | String "0" (String "X" r) => non_decimal 16 r
  | String "0" (String "o" r) | String "0" (String "O" r) => non_decimal 8 r
  | String "0" (String "b" r) | String "0" (String "B" r) => non_decimal 2 r
  | String "-" r => negate (unsigned_decimal r)
  | String "+" r => unsigned_decimal r
  | t => unsigned_decimal t
  end.

(** [Number(v)]. *)
Definition Number (v : value) : number :=
  match v with
  | Undefined => NaN
  | Str s => StringToNumber s
  end.

End Js.

(** ** Results and the effect monad *)

Inductive Result (A : Type) : Type :=
| OK (a : A)
| Throw (e : Js.Error).
Arguments OK {A} a.
Arguments Throw {A} e.

(** ** The data model *)

Definition instant := Z.

(** A workflow run as delivered by the platform. *)
Record WorkflowRun : Type := mkRun {
  run_id : Z;
  head_sha : string;
  run_created_at : instant
}.

(** An artifact of a run. *)
Record Artifact : Type := mkArtifact {
  id : Z;
  name : string;
  created_at : instant
}.

(** A tag: the commit it points to ([tag.commit.sha]). *)
Record Tag : Type := mkTag { commit_sha : string }.

(** The object [getConfigs] returns. *)
Record Configs : Type := mkConfigs {
  owner : option string;
  repo : option string;
  perPage : Z;
  maxAge : instant;
  skipTags : option bool;
  skipRecent : Js.number;
  retriesEnabled : bool;
  branchToConsider : string
}.

(** What the script prints, requests and reports. *)
Inductive Event : Type :=
| LogMaxAge (age : string) (units : option string) (cutoff : instant)
| LogTagsError (e : Js.Error)
| LogSkipTagged (sha : string)
| LogSkipTooOld (sha : string)
| LogExamining (run : Z)
| LogSkipRecent (artifact : Z) (artifact_name : string)
| LogFiltering (artifact : Z) (artifact_name : string) (at_age : instant)
    (filtered : bool)
| LogDevPrevent (artifact : Z) (artifact_name : string)
| LogAboutToRemove (artifact : Z) (artifact_name : string)
| LogRemoved (artifact : Z) (artifact_name : string)
| LogDeleteError (artifact : Z) (artifact_name : string) (e : Js.Error)
| ReqListTags (per_page : Z)
| ReqListRuns (per_page : Z) (branch : string) (page : nat)
| ReqListArtifacts (per_page : Z) (run : Z)
| ReqDeleteArtifact (artifact : Z)
| SetFailed (msg : string).

(** The requests among the events. *)
Definition is_request (ev : Event) : bool :=
  match ev with
  | ReqListTags _ | ReqListRuns _ _ _ | ReqListArtifacts _ _
  | ReqDeleteArtifact _ => true
  | _ => false
  end.

Definition is_log (ev : Event) : bool :=
  match ev with
  | LogMaxAge _ _ _ | LogTagsError _ | LogSkipTagged _ | LogSkipTooOld _
  | LogExamining _ | LogSkipRecent _ _ | LogFiltering _ _ _ _
  | LogDevPrevent _ _ | LogAboutToRemove _ _ | LogRemoved _ _
  | LogDeleteError _ _ _ => true
  | _ => false
  end.

(** The artifacts a trace asks the platform to delete, in order. *)
Definition deletions (evs : list Event) : list Z :=
  flat_map (fun ev => match ev with ReqDeleteArtifact a => [a] | _ => [] end)
    evs.

(** The runs whose artifacts a trace asks the platform to list. *)
Definition listed_runs (evs : list Event) : list Z :=
  flat_map (fun ev => match ev with ReqListArtifacts _ r => [r] | _ => [] end)
    evs.

(** The artifacts a trace reports as skipped by the recent-count rule. *)
Definition recent_skips (evs : list Event) : list Z :=
  flat_map (fun ev => match ev with LogSkipRecent a _ => [a] | _ => [] end)
    evs.

(** The artifacts a trace reports as age-checked, with the verdict. *)
Definition age_checks (evs : list Event) : list (Z * bool) :=
  flat_map (fun ev => match ev with
                      | LogFiltering a _ _ filtered => [(a, filtered)]
                      | _ => []
                      end) evs.

(** The deletion failures a trace reports. *)
Definition delete_errors (evs : list Event) : list (Z * Js.Error) :=
  flat_map (fun ev => match ev with
                      | LogDeleteError a _ e => [(a, e)]
                      | _ => []
                      end) evs.

(** The failure a trace reports to the toolkit. *)
Definition failures (evs : list Event) : list string :=
  flat_map (fun ev => match ev with SetFailed msg => [msg] | _ => [] end) evs.

(** ** The collaborators

    Everything the script calls but does not define. *)
Record World : Type := mkWorld {
  (** [process.env.NODE_ENV === "dev"] *)
  devEnv : bool;
  (** [process.env[key]] *)
  process_env : string -> option string;
  (** [core.getInput(key, { required })] *)
  core_getInput : string -> bool -> Result string;
  (** [yn(value)] *)
  yn : Js.value -> option bool;
  (** [moment()] and [moment.utc()]: the clock *)
  moment_now : instant;
  (** [m.subtract(age, units)] on the moment [m] *)
  moment_subtract : instant -> string -> option string -> Result instant;
  (** [octokit.paginate(listTagsRequest)] *)
  listTags : Result (list Tag);
  (** the pages [listRepoWorkflowRuns] serves, newest first *)
  workflowRunPages : list (Result (list WorkflowRun));
  (** [octokit.paginate(workflowRunArtifactsRequest)] for a run id *)
  listWorkflowRunArtifacts : Z -> Result (list Artifact);
  (** the order in which the artifact listings that were requested settle:
      a permutation of the runs given, see [settles_each_once] *)
  settle_order : list WorkflowRun -> list WorkflowRun;
  (** [octokit.actions.deleteArtifact] for an artifact id *)
  deleteArtifact : Z -> Result unit
}.

(** ** Effects: a trace of events and a possible exception *)

Definition Eff (A : Type) : Type := (list Event * Result A)%type.

Definition ret {A} (a : A) : Eff A := ([], OK a).

Definition bind {A B} (m : Eff A) (f : A -> Eff B) : Eff B :=
  match m with
  | (evs, OK a) => let '(evs', r) := f a in (evs ++ evs', r)
  | (evs, Throw e) => (evs, Throw e)
  end.

Definition emit (ev : Event) : Eff unit := ([ev], OK tt).

Definition throw {A} (e : Js.Error) : Eff A := ([], Throw e).

(** A call whose outcome the world decides. *)
Definition lift {A} (r : Result A) : Eff A := ([], r).

Declare Scope eff_scope.
Delimit Scope eff_scope with eff.
Notation "x <- m ;; k" := (bind m (fun x => k))
  (at level 61, m at next level, right associativity) : eff_scope.
Notation "m ;; k" := (bind m (fun _ => k))
  (at level 61, right associativity) : eff_scope.
Local Open Scope eff_scope.

(** ** [readInput] and [getConfigs] (lines 9-66) *)

Module inputKeys.

Definition AGE (w : World) : string := if devEnv w then "AGE" else "age".

Definition SKIP_TAGS (w : World) : string :=
  if devEnv w then "SKIP_TAGS" else "skip-tags".

Definition SKIP_RECENT (w : World) : string :=
  if devEnv w then "SKIP_RECENT" else "skip-recent".

End inputKeys.

Definition readInput (w : World) (key : string) (isRequired : bool)
  : Eff Js.value :=
  if devEnv w then
    ret (match process_env w key with
         | Some s => Js.Str s
         | None => Js.Undefined
         end)
  else
    s <- lift (core_getInput w key isRequired) ;;
    ret (Js.Str s).

(** Calling [.split] on [undefined]. *)
Definition TypeError_split : Js.Error :=
  Js.mkError "TypeError" "Cannot read property 'split' of undefined".

Definition skipRecentError : Js.Error :=
  Js.mkError "Error" "skip-recent option must be type of number.".

(** [value.split(sep)]. *)
Definition split_value (sep : ascii) (v : Js.value) : Eff (list string) :=
  match v with
  | Js.Undefined => throw TypeError_split
  | Js.Str s => ret (Js.split sep s)
  end.

Definition getConfigs (w : World) : Eff Configs :=
  parts <- split_value "/" (match process_env w "GITHUB_REPOSITORY" with
                            | Some s => Js.Str s
                            | None => Js.Undefined
                            end) ;;
  let owner := nth_error parts 0 in
  let repo := nth_error parts 1 in
  ageInput <- readInput w (inputKeys.AGE w) true ;;
  tokens <- split_value " " ageInput ;;
  let age := nth 0 tokens "" in
  let units := nth_error tokens 1 in
  maxAge <- lift (moment_subtract w (moment_now w) age units) ;;
  emit (LogMaxAge age units maxAge) ;;
  skipRecent <- readInput w (inputKeys.SKIP_RECENT w) false ;;
  (if Js.truthy skipRecent then
     let parsedRecent := Js.Number skipRecent in
     if Js.isNaN parsedRecent then throw skipRecentError else ret tt
   else ret tt) ;;
  maxAge' <- lift (moment_subtract w (moment_now w) age units) ;;
  skipTagsInput <- readInput w (inputKeys.SKIP_TAGS w) false ;;
  ret {| owner := owner;
         repo := repo;
         perPage := 100;
         maxAge := maxAge';
         skipTags := yn w skipTagsInput;
         skipRecent := Js.Number skipRecent;
         retriesEnabled := true;
         branchToConsider := "master" |}.

(** ** [getTaggedCommits] and the tag stage (lines 95-117) *)

Definition option_truthy (b : option bool) : bool :=
  match b with Some true => true | _ => false end.

Definition getTaggedCommits (w : World) (configs : Configs)
  : Eff (list string) :=
  emit (ReqListTags (perPage configs)) ;;
  tags <- lift (listTags w) ;;
  ret (map commit_sha tags).

(** [taggedCommits] stays [undefined] ([None]) unless [skipTags] is set. *)
Definition tag_stage (w : World) (configs : Configs)
  : Eff (option (list string)) :=
  if option_truthy (skipTags configs) then
    match getTaggedCommits w configs with
    | (evs, Throw err) => (evs ++ [LogTagsError err], Throw err)
    | (evs, OK l) => (evs, OK (Some l))
    end
  else ret None.

(** ** Run enumeration (lines 119-144) *)

Definition ten_days : Z := 10 * 24 * 60 * 60 * 1000.

(** [isTooOld], read at the clock value [now]. *)
Definition isTooOld (now : instant) (workflowRun : WorkflowRun) : bool :=
  let createdAt := run_created_at workflowRun in
  createdAt <? now - ten_days.

(** The callback given to [paginate]: whether it calls [done()]. *)
Definition stopPagination (now : instant) (data : list WorkflowRun)
  : option WorkflowRun :=
  find (isTooOld now) data.

(** [octokit.paginate(request, mapFn)]: pages are requested one after the
    other and their mapped contents concatenated, until there is no next
    page, a request fails, or the callback has called [done()]. *)
Fixpoint paginate_runs (per_page : Z) (branch : string) (now : instant)
  (page : nat) (pages : list (Result (list WorkflowRun)))
  : Eff (list WorkflowRun) :=
  match pages with
  | [] => ret []
  | response :: rest =>
      emit (ReqListRuns per_page branch page) ;;
      data <- lift response ;;
      match stopPagination now data with
      | Some _ => ret data
      | None =>
          more <- paginate_runs per_page branch now (S page) rest ;;
          ret (data ++ more)
      end
  end.

Definition list_runs (w : World) (configs : Configs) : Eff (list WorkflowRun) :=
  paginate_runs (perPage configs + 200) (branchToConsider configs)
    (moment_now w) 0 (workflowRunPages w).

(** ** The run-level filter (lines 146-176) *)

(** Calling [.includes] on [undefined]. *)
Definition TypeError_includes : Js.Error :=
  Js.mkError "TypeError" "Cannot read property 'includes' of undefined".

(** [taggedCommits.includes(sha)]. *)
Definition includes (l : list string) (sha : string) : bool :=
  existsb (String.eqb sha) l.

(** [configs.skipTags && taggedCommits.includes(workflowRun.head_sha)]:
    the right operand is evaluated only when the left one is truthy. *)
Definition skipTaggedWorkflow (configs : Configs)
  (taggedCommits : option (list string)) (workflowRun : WorkflowRun)
  : Result bool :=
  if option_truthy (skipTags configs) then
    match taggedCommits with
    | Some l => OK (includes l (head_sha workflowRun))
    | None => Throw TypeError_includes
    end
  else OK false.

(** The callback of [workflowRuns.filter]. *)
Definition run_filter (configs : Configs) (taggedCommits : option (list string))
  (now : instant) (workflowRun : WorkflowRun) : Eff bool :=
  tagged <- lift (skipTaggedWorkflow configs taggedCommits workflowRun) ;;
  if tagged : bool then
    emit (LogSkipTagged (head_sha workflowRun)) ;; ret false
  else if isTooOld now workflowRun then
    emit (LogSkipTooOld (head_sha workflowRun)) ;; ret false
  else ret true.

Fixpoint filter_runs (configs : Configs) (taggedCommits : option (list string))
  (now : instant) (workflowRuns : list WorkflowRun) : Eff (list WorkflowRun) :=
  match workflowRuns with
  | [] => ret []
  | r :: rest =>
      keep <- run_filter configs taggedCommits now r ;;
      more <- filter_runs configs taggedCommits now rest ;;
      ret (if keep : bool then r :: more else more)
  end.

(** The first half of the [.map] callback: the listing request of a run. *)
Definition request_artifacts (configs : Configs) (workflowRun : WorkflowRun)
  : list Event :=
  [LogExamining (run_id workflowRun);
   ReqListArtifacts (perPage configs) (run_id workflowRun)].

(** ** The artifact filter (lines 179-202) *)

(** [configs.skipRecent && configs.skipRecent > skippedArtifactsCounter]. *)
Definition skipRecentArtifact (configs : Configs) (skippedArtifactsCounter : Z)
  : bool :=
  Js.number_truthy (skipRecent configs)
  && Js.gt_int (skipRecent configs) skippedArtifactsCounter.

(** [createdAt.isBefore(configs.maxAge)]. *)
Definition isBefore (a b : instant) : bool := a <? b.

(** The callback of [artifacts.filter]: its verdict, the counter it leaves
    behind and the line it logs. *)
Definition artifact_filter (configs : Configs) (skippedArtifactsCounter : Z)
  (artifact : Artifact) : bool * Z * Event :=
  if skipRecentArtifact configs skippedArtifactsCounter then
    (false, skippedArtifactsCounter + 1,
     LogSkipRecent (id artifact) (name artifact))
  else
    let createdAt := created_at artifact in
    let filtered := isBefore createdAt (maxAge configs) in
    (filtered, skippedArtifactsCounter,
     LogFiltering (id artifact) (name artifact) (created_at artifact) filtered).

(** [artifacts.filter(...)] with the counter threaded through: the
    artifacts that pass, the counter afterwards, the lines logged. *)
Fixpoint filter_artifacts (configs : Configs) (skippedArtifactsCounter : Z)
  (artifacts : list Artifact) : list Artifact * Z * list Event :=
  match artifacts with
  | [] => ([], skippedArtifactsCounter, [])
  | a :: rest =>
      let '(keep, counter, line) :=
        artifact_filter configs skippedArtifactsCounter a in
      let '(kept, counter', lines) := filter_artifacts configs counter rest in
      (if keep then a :: kept else kept, counter', line :: lines)
  end.

(** ** Deletion (lines 203-232) *)

(** The synchronous part of the [.map] callback: what is logged and
    requested when the promise for one artifact is created. *)
Definition remove_artifact (w : World) (artifact : Artifact) : list Event :=
  if devEnv w then [LogDevPrevent (id artifact) (name artifact)]
  else [LogAboutToRemove (id artifact) (name artifact);
        ReqDeleteArtifact (id artifact)].

(** How that promise settles: [.then] logs the success, [.catch] logs the
    error and returns normally. *)
Definition delete_promise (w : World) (artifact : Artifact) : Eff unit :=
  if devEnv w then ret tt
  else
    match deleteArtifact w (id artifact) with
    | OK _ => emit (LogRemoved (id artifact) (name artifact))
    | Throw e => emit (LogDeleteError (id artifact) (name artifact) e)
    end.

(** [Promise.all] over promises settled one after the other: all of them
    run, the first rejection is the result. *)
Fixpoint all_settled {A} (promises : list (Eff A)) : Eff (list A) :=
  match promises with
  | [] => ret []
  | (evs, r) :: rest =>
      let '(evs', rs) := all_settled rest in
      (evs ++ evs',
       match r, rs with
       | Throw e, _ => Throw e
       | OK _, Throw e => Throw e
       | OK a, OK l => OK (a :: l)
       end)
  end.

(** ** The fan-out (lines 167-239) *)

(** What one run's pipeline does when its listing settles with [response],
    given the shared counter: the [.then] callback filters and starts the
    deletions; a failed listing leaves a rejected promise. *)
Definition pipeline (w : World) (configs : Configs) (skippedArtifactsCounter : Z)
  (response : Result (list Artifact)) : Eff (list Artifact) * Z :=
  match response with
  | Throw e => (throw e, skippedArtifactsCounter)
  | OK artifacts =>
      let '(kept, counter, lines) :=
        filter_artifacts configs skippedArtifactsCounter artifacts in
      ((lines ++ flat_map (remove_artifact w) kept, OK kept), counter)
  end.

(** The pipelines in the order their listings settle, sharing the counter. *)
Fixpoint pipelines (w : World) (configs : Configs) (skippedArtifactsCounter : Z)
  (responses : list (Result (list Artifact)))
  : list (Eff (list Artifact)) * Z :=
  match responses with
  | [] => ([], skippedArtifactsCounter)
  | response :: rest =>
      let '(p, counter) := pipeline w configs skippedArtifactsCounter response in
      let '(ps, counter') := pipelines w configs counter rest in
      (p :: ps, counter')
  end.

(** The artifacts the started deletions are for. *)
Fixpoint started_deletions (ps : list (Eff (list Artifact))) : list Artifact :=
  match ps with
  | [] => []
  | (_, OK kept) :: rest => kept ++ started_deletions rest
  | (_, Throw _) :: rest => started_deletions rest
  end.

(** Everything after run enumeration: [let skippedArtifactsCounter = 0],
    the run filter, the listing requests, the pipelines and the two joins.
    The deletions that were started settle whether or not a listing
    failed; their reports are placed after the lines of the pipelines, in
    the order the deletions were started (the source does not fix where
    they fall among the other lines). *)
Definition fan_out (w : World) (configs : Configs)
  (taggedCommits : option (list string)) (workflowRuns : list WorkflowRun)
  : Eff unit :=
  let skippedArtifactsCounter := 0 in
  surviving <- filter_runs configs taggedCommits (moment_now w) workflowRuns ;;
  (flat_map (request_artifacts configs) surviving, OK tt) ;;
  let responses :=
    map (fun r => listWorkflowRunArtifacts w (run_id r))
        (settle_order w surviving) in
  let '(ps, _) := pipelines w configs skippedArtifactsCounter responses in
  let listings := all_settled ps in
  let removals := all_settled (map (delete_promise w) (started_deletions ps)) in
  (fst listings ++ fst removals,
   match snd listings, snd removals with
   | Throw e, _ => Throw e
   | OK _, Throw e => Throw e
   | OK _, OK _ => OK tt
   end).

(** ** [run] and the final [catch] (lines 70-244) *)

Definition run (w : World) : Eff unit :=
  configs <- getConfigs w ;;
  taggedCommits <- tag_stage w configs ;;
  workflowRuns <- list_runs w configs ;;
  fan_out w configs taggedCommits workflowRuns.

(** What the process leaves behind: its events and its exit code.
    [core.setFailed] logs the message and sets the exit code to 1.  The
    source reports as soon as the join rejects, which can be before the
    lines of the pipelines that settle later; the trace places the report
    last, and its place among the other lines is not modelled. *)
Record Outcome : Type := mkOutcome {
  events : list Event;
  exitCode : Z
}.

Definition main (w : World) : Outcome :=
  match run w with
  | (evs, OK _) => {| events := evs; exitCode := 0 |}
  | (evs, Throw err) =>
      {| events := evs ++ [SetFailed (Js.toString err)]; exitCode := 1 |}
  end.

(** ** The throttle handlers (lines 72-93) *)

(** The [options] a handler receives: the request and how often it was
    retried. *)
Record RequestOptions : Type := mkOptions {
  method : string;
  url : string;
  retryCount : Z
}.

(** What the handlers print. *)
Inductive ThrottleLine : Type :=
| QuotaExhausted (request_method request_url : string) (retries : Z)
| AbuseDetected (request_method request_url : string) (retries : Z)
| RetryingAfter (seconds : Z).

(** [onRateLimit]: the lines printed and the answer (retry or not). *)
Definition onRateLimit (configs : Configs) (retryAfter : Z)
  (options : RequestOptions) : list ThrottleLine * bool :=
  ([QuotaExhausted (method options) (url options) (retryCount options);
    RetryingAfter retryAfter],
   retriesEnabled configs).

(** [onAbuseLimit]. *)
Definition onAbuseLimit (configs : Configs) (retryAfter : Z)
  (options : RequestOptions) : list ThrottleLine * bool :=
  ([AbuseDetected (method options) (url options) (retryCount options);
    RetryingAfter retryAfter],
   retriesEnabled configs).

(** ** Vocabulary of the statements *)

(** The artifacts the scan meets, in the order it meets them: the contents
    of the listings that succeeded, in the order they settle. *)
Definition encountered (responses : list (Result (list Artifact)))
  : list Artifact :=
  flat_map (fun r => match r with OK l => l | Throw _ => [] end) responses.

(** The listings of the given runs, in the order they settle. *)
Definition settled_listings (w : World) (surviving : list WorkflowRun)
  : list (Result (list Artifact)) :=
  map (fun r => listWorkflowRunArtifacts w (run_id r)) (settle_order w surviving).

(** The age test of an artifact against the cutoff. *)
Definition older_than_cutoff (configs : Configs) (a : Artifact) : bool :=
  isBefore (created_at a) (maxAge configs).

(** The line logged for an artifact the recent-count rule skips. *)
Definition skip_line (a : Artifact) : Event := LogSkipRecent (id a) (name a).

(** The line logged for an artifact that reaches the age test. *)
Definition filter_line (configs : Configs) (a : Artifact) : Event :=
  LogFiltering (id a) (name a) (created_at a) (older_than_cutoff configs a).

(** Whether the run-level filter drops a run. *)
Definition run_excluded (configs : Configs) (tagged : list string)
  (now : instant) (r : WorkflowRun) : bool :=
  (option_truthy (skipTags configs) && includes tagged (head_sha r))
  || isTooOld now r.

(** The tagged-commit set as a list: empty when it was never fetched. *)
Definition tagged_set (taggedCommits : option (list string)) : list string :=
  match taggedCommits with Some l => l | None => [] end.

(** What the run-level filter logs for a run. *)
Definition run_filter_lines (configs : Configs) (tagged : list string)
  (now : instant) (r : WorkflowRun) : list Event :=
  if option_truthy (skipTags configs) && includes tagged (head_sha r)
  then [LogSkipTagged (head_sha r)]
  else if isTooOld now r then [LogSkipTooOld (head_sha r)]
  else [].

(** The first listing that failed, if any. *)
Fixpoint first_rejection {A} (responses : list (Result A))
  : option Js.Error :=
  match responses with
  | [] => None
  | Throw e :: _ => Some e
  | OK _ :: rest => first_rejection rest
  end.

(** The events of each stage of the fan-out. *)
Definition run_filter_event (ev : Event) : Prop :=
  match ev with LogSkipTagged _ | LogSkipTooOld _ => True | _ => False end.

Definition listing_event (ev : Event) : Prop :=
  match ev with LogExamining _ | ReqListArtifacts _ _ => True | _ => False end.

Definition pipeline_event (ev : Event) : Prop :=
  match ev with
  | LogSkipRecent _ _ | LogFiltering _ _ _ _ | LogDevPrevent _ _
  | LogAboutToRemove _ _ | ReqDeleteArtifact _ => True
  | _ => False
  end.

Definition early_event (ev : Event) : Prop :=
  match ev with
  | LogMaxAge _ _ _ | LogTagsError _ | ReqListTags _ | ReqListRuns _ _ _ => True
  | _ => False
  end.

Definition delete_report (ev : Event) : Prop :=
  match ev with LogRemoved _ _ | LogDeleteError _ _ _ => True | _ => False end.

(** The configuration with another cutoff. *)
Definition with_maxAge (configs : Configs) (cutoff : instant) : Configs :=
  {| owner := owner configs;
     repo := repo configs;
     perPage := perPage configs;
     maxAge := cutoff;
     skipTags := skipTags configs;
     skipRecent := skipRecent configs;
     retriesEnabled := retriesEnabled configs;
     branchToConsider := branchToConsider configs |}.

(** The configuration with another recent-skip count. *)
Definition with_skipRecent (configs : Configs) (n : Js.number) : Configs :=
  {| owner := owner configs;
     repo := repo configs;
     perPage := perPage configs;
     maxAge := maxAge configs;
     skipTags := skipTags configs;
     skipRecent := n;
     retriesEnabled := retriesEnabled configs;
     branchToConsider := branchToConsider configs |}.

(** The failures the platform answers to the given deletions. *)
Definition reported_failures (answer : Z -> Result unit) (artifacts : list Z)
  : list (Z * Js.Error) :=
  flat_map (fun a => match answer a with
                     | Throw e => [(a, e)]
                     | OK _ => []
                     end) artifacts.

(** An event of a run that did not fail: a log line or a request. *)
Definition log_or_request (ev : Event) : Prop :=
  is_log ev = true \/ is_request ev = true.

(** A page holds a run that is too old. *)
Definition has_too_old (now : instant) (page : list WorkflowRun) : bool :=
  existsb (isTooOld now) page.

(** The requests for [n] consecutive pages of runs, from page [start]. *)
Definition page_requests (per_page : Z) (branch : string) (start n : nat)
  : list Event :=
  map (ReqListRuns per_page branch) (seq start n).

(** A number that is a non-negative integer. *)
Definition nonneg_integer (n : Js.number) : bool :=
  match n with
  | Js.Num q => (0 <=? Qnum q) && (Qnum q mod Zpos (Qden q) =? 0)
  | _ => false
  end.

(** The world [w] with another platform answer to deletions. *)
Definition with_deleteArtifact (w : World) (f : Z -> Result unit) : World :=
  {| devEnv := devEnv w;
     process_env := process_env w;
     core_getInput := core_getInput w;
     yn := yn w;
     moment_now := moment_now w;
     moment_subtract := moment_subtract w;
     listTags := listTags w;
     workflowRunPages := workflowRunPages w;
     listWorkflowRunArtifacts := listWorkflowRunArtifacts w;
     settle_order := settle_order w;
     deleteArtifact := f |}.

(** Everything [getConfigs] reads apart from skip-recent resolves: the
    repository identity is set, the age input is a string whose tokens the
    time library accepts, and the skip-tags input can be read. *)
Definition ambient_resolves (w : World) (cutoff : instant) : Prop :=
  process_env w "GITHUB_REPOSITORY" <> None /\
  (exists ageInput,
      snd (readInput w (inputKeys.AGE w) true) = OK (Js.Str ageInput) /\
      moment_subtract w (moment_now w)
        (nth 0 (Js.split " " ageInput) "") (nth_error (Js.split " " ageInput) 1)
      = OK cutoff) /\
  (exists v, snd (readInput w (inputKeys.SKIP_TAGS w) false) = OK v).

(** ** The time library: [moment().subtract(age, units)]

    The library is not part of the repository.  This is what its
    [subtract] does with two arguments that are strings (the second one
    possibly undefined), for a process that runs in UTC: it never raises;
    arguments it cannot read leave the moment as it is. *)

Module Moment.

(** The units a duration is made of. *)
Inductive unit_of_time : Type :=
| Years | Quarters | Months | Weeks | Days
| Hours | Minutes | Seconds | Milliseconds.

(** What a name of units stands for: a unit of durations, or a field of
    the calendar, which a duration ignores. *)
Inductive normalized : Type :=
| Duration_unit (u : unit_of_time)
| Calendar_field.

Definition lower (c : ascii) : ascii :=
  let n := nat_of_ascii c in
  if ((65 <=? n) && (n <=? 90))%nat then ascii_of_nat (n + 32) else c.

Fixpoint toLowerCase (s : string) : string :=
  match s with
  | EmptyString => EmptyString
  | String c rest => String (lower c) (toLowerCase rest)
  end.

Definition one_of (names : list string) (s : string) : bool :=
  existsb (String.eqb s) names.

(** The table of aliases: the name of each unit in lower case, its plural
    and its shorthand. *)
Definition aliases (s : string) : option normalized :=
  if one_of ["year"; "years"; "y"] s then Some (Duration_unit Years)
  else if one_of ["quarter"; "quarters"; "Q"] s then Some (Duration_unit Quarters)
  else if one_of ["month"; "months"; "M"] s then Some (Duration_unit Months)
  else if one_of ["week"; "weeks"; "w"] s then Some (Duration_unit Weeks)
  else if one_of ["day"; "days"; "d"] s then Some (Duration_unit Days)
  else if one_of ["hour"; "hours"; "h"] s then Some (Duration_unit Hours)
  else if one_of ["minute"; "minutes"; "m"] s then Some (Duration_unit Minutes)
  else if one_of ["second"; "seconds"; "s"] s then Some (Duration_unit Seconds)
  else if one_of ["millisecond"; "milliseconds"; "ms"] s
  then Some (Duration_unit Milliseconds)
  else if one_of ["date"; "dates"; "D"; "weekday"; "weekdays"; "e";
                  "isoweekday"; "isoweekdays"; "E";
                  "dayofyear"; "dayofyears"; "DDD";
                  "weekyear"; "weekyears"; "gg";
                  "isoweekyear"; "isoweekyears"; "GG";
                  "isoweek"; "isoweeks"; "W"] s
  then Some Calendar_field
  else None.

(** [normalizeUnits]: the name as it is, else in lower case. *)
Definition normalizeUnits (units : string) : option normalized :=
  match aliases units with
  | Some u => Some u
  | None => aliases (toLowerCase units)
  end.

(** *** The calendar (proleptic Gregorian, UTC) *)

Definition day : Z := 24 * 60 * 60 * 1000.

(** The number of the day of a date, day 0 being 1970-01-01; months count
    from 1. *)
Definition days_from_civil (y m d : Z) : Z :=
  let y' := if m <=? 2 then y - 1 else y in
  let era := y' / 400 in
  let yoe := y' - era * 400 in
  let doy := (153 * (if 2 <? m then m - 3 else m + 9) + 2) / 5 + d - 1 in
  let doe := yoe * 365 + yoe / 4 - yoe / 100 + doy in
  era * 146097 + doe - 719468.

(** The date of a day: year, month from 1, day of the month. *)
Definition civil_from_days (z : Z) : Z * Z * Z :=
  let z' := z + 719468 in
  let era := z' / 146097 in
  let doe := z' - era * 146097 in
  let yoe := (doe - doe / 1460 + doe / 36524 - doe / 146096) / 365 in
  let doy := doe - (365 * yoe + yoe / 4 - yoe / 100) in
  let mp := (5 * doy + 2) / 153 in
  let d := doy - (153 * mp + 2) / 5 + 1 in
  let m := if mp <? 10 then mp + 3 else mp - 9 in
  ((if m <=? 2 then yoe + era * 400 + 1 else yoe + era * 400), m, d).

Definition isLeapYear (year : Z) : bool :=
  ((year mod 4 =? 0) && negb (year mod 100 =? 0)) || (year mod 400 =? 0).

(** [daysInMonth(year, month)], months counting from 0 and overflowing
    into the years. *)
Definition daysInMonth (year month : Z) : Z :=
  let modMonth := month mod 12 in
  let year' := year + (month - modMonth) / 12 in
  if modMonth =? 1 then (if isLeapYear year' then 29 else 28)
  else 31 - (modMonth mod 7) mod 2.

(** [setMonth(mom, value)]: the month is set, the day of the month kept
    as far as the new month has it, the time of the day kept. *)
Definition setMonth (m : instant) (value : Z) : instant :=
  let '(year, month, date) := civil_from_days (m / day) in
  let dayOfMonth := Z.min date (daysInMonth year value) in
  days_from_civil (year + value / 12) (value mod 12 + 1) dayOfMonth * day
  + m mod day.

(** The month of a moment, from 0. *)
Definition month_of (m : instant) : Z :=
  let '(_, month, _) := civil_from_days (m / day) in month - 1.

(** *** Durations *)

(** [Math.round]. *)
Definition round (q : Q) : Z := Qfloor (q + (1 # 2)).

(** [absRound]. *)
Definition absRound (q : Q) : Z :=
  if Qnum q <? 0 then - round (- q) else round q.

(** The integer part, as setting the time of a date takes it. *)
Definition truncate (q : Q) : Z := Z.quot (Qnum q) (Zpos (Qden q)).

(** A duration of [q] units [u], as the constructor keeps it:
    milliseconds, days and months. *)
Definition duration_of (q : Q) (u : unit_of_time) : Q * Q * Q :=
  match u with
  | Milliseconds => (q, 0, 0)
  | Seconds => (q * 1000, 0, 0)
  | Minutes => (q * 60000, 0, 0)
  | Hours => (q * 3600000, 0, 0)
  | Days => (0, q, 0)
  | Weeks => (0, q * 7, 0)
  | Months => (0, 0, q)
  | Quarters => (0, 0, q * 3)
  | Years => (0, 0, q * 12)
  end%Q.

(** [addSubtract(mom, duration, -1)]: months first, then days, then
    milliseconds, each only when it is not zero. *)
Definition subtract_duration (m : instant) (duration : Q * Q * Q) : instant :=
  let '(milliseconds, days, months) := duration in
  let m1 := if absRound months =? 0 then m
            else setMonth m (month_of m - absRound months) in
  let m2 := if absRound days =? 0 then m1 else m1 - absRound days * day in
  if Qnum milliseconds =? 0 then m2
  else truncate (inject_Z m2 - milliseconds).

(** What the two arguments are read as: after the exchange that the
    library makes when the second argument reads as a number, the amount
    and the key of the duration; an empty key stands for milliseconds. *)
Definition arguments (val : string) (period : option string)
  : Js.number * option string :=
  let '(val', period') :=
    match period with
    | Some p =>
        if Js.isNaN (Js.StringToNumber p) then (val, Some p) else (p, Some val)
    | None => (val, None)
    end in
  (Js.StringToNumber val',
   match period' with
   | Some EmptyString => None
   | other => other
   end).

(** The arguments give nothing to subtract because they cannot be read:
    the amount is not a number, or the units are no name the library
    knows. *)
Definition unreadable (val : string) (period : option string) : bool :=
  let '(amount, key) := arguments val period in
  Js.isNaN amount
  || match key with
     | Some k => match normalizeUnits k with None => true | Some _ => false end
     | None => false
     end.

(** [m.subtract(val, period)].  An infinite amount makes the moment
    invalid (nothing is before it), which an instant cannot express: the
    moment is left as it is there, and no statement is made for such
    amounts. *)
Definition subtract (m : instant) (val : string) (period : option string)
  : Result instant :=
  let '(amount, key) := arguments val period in
  OK (match amount with
      | Js.Num q =>
          match key with
          | None => subtract_duration m (duration_of q Milliseconds)
          | Some k =>
              match normalizeUnits k with
              | Some (Duration_unit u) => subtract_duration m (duration_of q u)
              | _ => m
              end
          end
      | _ => m
      end).

End Moment.

(** The time library of a world is moment. *)
Definition uses_moment (w : World) : Prop :=
  forall m age units, moment_subtract w m age units = Moment.subtract m age units.

(** ** Sample worlds *)

Module Sample.

Definition day : Z := 24 * 60 * 60 * 1000.

Definition lenient_bool (v : Js.value) : option bool :=
  match v with
  | Js.Str "true" => Some true
  | Js.Str "false" => Some false
  | _ => None
  end.

Definition http_error : Js.Error := Js.mkError "HttpError" "Server Error".

(** The clock stands at day 100. *)
Definition now : instant := 100 * day.

Definition runs_page1 : list WorkflowRun :=
  [mkRun 11 "aaa" (99 * day); mkRun 12 "bbb" (95 * day)].
Definition runs_page2 : list WorkflowRun :=
  [mkRun 13 "ccc" (91 * day); mkRun 14 "ddd" (80 * day);
   mkRun 15 "eee" (70 * day)].
Definition runs_page3 : list WorkflowRun :=
  [mkRun 16 "fff" (60 * day)].

Definition artifacts_of (run : Z) : list Artifact :=
  if run =? 11 then
    [mkArtifact 1 "bin" (55 * day); mkArtifact 2 "logs" (99 * day);
     mkArtifact 3 "cov" (40 * day)]
  else if run =? 12 then
    [mkArtifact 4 "bin" (30 * day); mkArtifact 5 "logs" (70 * day)]
  else if run =? 13 then [mkArtifact 6 "bin" (20 * day)]
  else [].

(** A production world: inputs come from the toolkit. *)
Definition world (age skip_tags skip_recent : string) : World :=
  {| devEnv := false;
     process_env := fun key =>
       if String.eqb key "GITHUB_REPOSITORY" then Some "octo/repo" else None;
     core_getInput := fun key _ =>
       if String.eqb key "age" then OK age
       else if String.eqb key "skip-tags" then OK skip_tags
       else if String.eqb key "skip-recent" then OK skip_recent
       else OK "";
     yn := lenient_bool;
     moment_now := now;
     moment_subtract := Moment.subtract;
     listTags := OK [mkTag "bbb"];
     workflowRunPages := [OK runs_page1; OK runs_page2; OK runs_page3];
     listWorkflowRunArtifacts := fun run => OK (artifacts_of run);
     settle_order := fun l => l;
     deleteArtifact := fun a =>
       if a =? 4 then Throw http_error else OK tt |}.

(** The configuration of [world "30 days" "" skip_recent], for a count. *)
Definition configs (n : nat) : Configs :=
  {| owner := Some "octo";
     repo := Some "repo";
     perPage := 100;
     maxAge := 70 * day;
     skipTags := None;
     skipRecent := Js.of_nat n;
     retriesEnabled := true;
     branchToConsider := "master" |}.

(** The configuration of [world age "" ""] for an age that gives the
    cutoff [c]. *)
Definition configs_at (c : instant) : Configs :=
  {| owner := Some "octo";
     repo := Some "repo";
     perPage := 100;
     maxAge := c;
     skipTags := None;
     skipRecent := Js.Num 0;
     retriesEnabled := true;
     branchToConsider := "master" |}.

(** Five artifacts of one run, in listing order. *)
Definition five : list Artifact :=
  [mkArtifact 1 "a" (10 * day); mkArtifact 2 "b" (99 * day);
   mkArtifact 3 "c" (20 * day); mkArtifact 4 "d" (30 * day);
   mkArtifact 5 "e" (90 * day)].

Definition recent_run : WorkflowRun := mkRun 11 "aaa" (99 * day).

(** A world with that one run and its five artifacts. *)
Definition five_world (skip_recent : string) : World :=
  {| devEnv := false;
     process_env := process_env (world "30 days" "" skip_recent);
     core_getInput := core_getInput (world "30 days" "" skip_recent);
     yn := lenient_bool;
     moment_now := now;
     moment_subtract := Moment.subtract;
     listTags := OK [];
     workflowRunPages := [OK [recent_run]];
     listWorkflowRunArtifacts := fun _ => OK five;
     settle_order := fun l => l;
     deleteArtifact := fun _ => OK tt |}.

(** The production world with the listing of run 12 failing. *)
Definition broken_listing_world : World :=
  {| devEnv := false;
     process_env := process_env (world "30 days" "" "");
     core_getInput := core_getInput (world "30 days" "" "");
     yn := lenient_bool;
     moment_now := now;
     moment_subtract := Moment.subtract;
     listTags := OK [];
     workflowRunPages := [OK runs_page1; OK runs_page2; OK runs_page3];
     listWorkflowRunArtifacts := fun run =>
       if run =? 12 then Throw http_error else OK (artifacts_of run);
     settle_order := fun l => l;
     deleteArtifact := fun _ => OK tt |}.

(** The configuration of [world "30 days" "true" ""]. *)
Definition tagged_configs : Configs :=
  {| owner := Some "octo";
     repo := Some "repo";
     perPage := 100;
     maxAge := 70 * day;
     skipTags := Some true;
     skipRecent := Js.Num 0;
     retriesEnabled := true;
     branchToConsider := "master" |}.

End Sample.

(** ** Vocabulary of the further properties *)

(** The artifacts a trace reports as spared by the development mode. *)
Definition prevented (evs : list Event) : list Z :=
  flat_map (fun ev => match ev with LogDevPrevent a _ => [a] | _ => [] end)
    evs.

(** The requests of a trace, in order. *)
Definition requests (evs : list Event) : list Event := filter is_request evs.

(** Every listing that was requested settles, once. *)
Definition settles_each_once (w : World) : Prop :=
  forall runs, Permutation (settle_order w runs) runs.

(** The page sizes of the tag listings a trace requests. *)
Definition tag_requests (evs : list Event) : list Z :=
  flat_map (fun ev => match ev with ReqListTags p => [p] | _ => [] end) evs.

(** The line of configuration resolution. *)
Definition config_line (ev : Event) : Prop :=
  match ev with LogMaxAge _ _ _ => True | _ => False end.

(** A request for a page of runs with the given size and branch. *)
Definition run_request (per_page : Z) (branch : string) (ev : Event) : Prop :=
  match ev with
  | ReqListRuns p b _ => p = per_page /\ b = branch
  | _ => False
  end.

(** The world [w] in the other execution mode. *)
Definition with_devEnv (w : World) (dev : bool) : World :=
  {| devEnv := dev;
     process_env := process_env w;
     core_getInput := core_getInput w;
     yn := yn w;
     moment_now := moment_now w;
     moment_subtract := moment_subtract w;
     listTags := listTags w;
     workflowRunPages := workflowRunPages w;
     listWorkflowRunArtifacts := listWorkflowRunArtifacts w;
     settle_order := settle_order w;
     deleteArtifact := deleteArtifact w |}.

(** The world [w] with other answers to the artifact listings. *)
Definition with_listings (w : World) (f : Z -> Result (list Artifact)) : World :=
  {| devEnv := devEnv w;
     process_env := process_env w;
     core_getInput := core_getInput w;
     yn := yn w;
     moment_now := moment_now w;
     moment_subtract := moment_subtract w;
     listTags := listTags w;
     workflowRunPages := workflowRunPages w;
     listWorkflowRunArtifacts := f;
     settle_order := settle_order w;
     deleteArtifact := deleteArtifact w |}.

(** A failed listing read as an empty one. *)
Definition or_empty (r : Result (list Artifact)) : Result (list Artifact) :=
  match r with
  | OK l => OK l
  | Throw _ => OK []
  end.

(** The least integer that is not below [q]. *)
Definition ceiling (q : Q) : Z :=
  (Qnum q + Zpos (Qden q) - 1) / Zpos (Qden q).

(** How many of [total] artifacts a recent-skip count lets the rule
    exclude: none for [NaN], zero, a negative number; all of them for
    [Infinity]; otherwise the count rounded up, as far as there are
    artifacts. *)
Definition skip_budget (n : Js.number) (total : nat) : nat :=
  match n with
  | Js.NaN => 0
  | Js.Num q => Nat.min (Z.to_nat (ceiling q)) total
  | Js.Inf negative => if negative then 0 else total
  end.

(** The string holds no occurrence of the character. *)
Fixpoint lacks (sep : ascii) (s : string) : bool :=
  match s with
  | EmptyString => true
  | String c rest => negb (Ascii.eqb c sep) && lacks sep rest
  end.

(** A request with the page size and the branch the script fixes. *)
Definition sized_as_fixed (ev : Event) : Prop :=
  match ev with
  | ReqListTags per_page => per_page = 100
  | ReqListRuns per_page branch _ => per_page = 300 /\ branch = "master"
  | ReqListArtifacts per_page _ => per_page = 100
  | _ => True
  end.

(** The inputs [getConfigs] reads, as it reads them, and the
    configuration it builds from them. *)
Record Inputs : Type := mkInputs {
  in_repository : string;
  in_age : string;
  in_cutoff : instant;
  in_skipRecent : Js.value;
  in_skipTags : Js.value
}.

Definition reads (w : World) (i : Inputs) : Prop :=
  process_env w "GITHUB_REPOSITORY" = Some (in_repository i) /\
  snd (readInput w (inputKeys.AGE w) true) = OK (Js.Str (in_age i)) /\
  moment_subtract w (moment_now w)
    (nth 0 (Js.split " " (in_age i)) "")
    (nth_error (Js.split " " (in_age i)) 1) = OK (in_cutoff i) /\
  snd (readInput w (inputKeys.SKIP_RECENT w) false) = OK (in_skipRecent i) /\
  (Js.truthy (in_skipRecent i) = false
   \/ Js.isNaN (Js.Number (in_skipRecent i)) = false) /\
  snd (readInput w (inputKeys.SKIP_TAGS w) false) = OK (in_skipTags i).

Definition configs_of (w : World) (i : Inputs) : Configs :=
  {| owner := nth_error (Js.split "/" (in_repository i)) 0;
     repo := nth_error (Js.split "/" (in_repository i)) 1;
     perPage := 100;
     maxAge := in_cutoff i;
     skipTags := yn w (in_skipTags i);
     skipRecent := Js.Number (in_skipRecent i);
     retriesEnabled := true;
     branchToConsider := "master" |}.

Module MoreSamples.

(** The production world with another repository identity. *)
Definition world_of (repository_identity : string) : World :=
  {| devEnv := false;
     process_env := fun key =>
       if String.eqb key "GITHUB_REPOSITORY" then Some repository_identity
       else None;
     core_getInput := core_getInput (Sample.world "30 days" "" "");
     yn := Sample.lenient_bool;
     moment_now := Sample.now;
     moment_subtract := Moment.subtract;
     listTags := OK [];
     workflowRunPages := [OK Sample.runs_page1];
     listWorkflowRunArtifacts := fun run => OK (Sample.artifacts_of run);
     settle_order := fun l => l;
     deleteArtifact := fun _ => OK tt |}.

(** A development world: inputs come from the environment. *)
Definition dev_world (age : option string) : World :=
  {| devEnv := true;
     process_env := fun key =>
       if String.eqb key "GITHUB_REPOSITORY" then Some "octo/repo"
       else if String.eqb key "AGE" then age
       else None;
     core_getInput := fun _ _ => OK "";
     yn := Sample.lenient_bool;
     moment_now := Sample.now;
     moment_subtract := Moment.subtract;
     listTags := OK [];
     workflowRunPages := [OK Sample.runs_page1; OK Sample.runs_page2];
     listWorkflowRunArtifacts := fun run => OK (Sample.artifacts_of run);
     settle_order := fun l => l;
     deleteArtifact := fun _ => OK tt |}.

(** The production world with the tag listing failing. *)
Definition broken_tags_world : World :=
  {| devEnv := false;
     process_env := process_env (Sample.world "30 days" "true" "");
     core_getInput := core_getInput (Sample.world "30 days" "true" "");
     yn := Sample.lenient_bool;
     moment_now := Sample.now;
     moment_subtract := Moment.subtract;
     listTags := Throw Sample.http_error;
     workflowRunPages := [OK Sample.runs_page1; OK Sample.runs_page2];
     listWorkflowRunArtifacts := fun run => OK (Sample.artifacts_of run);
     settle_order := fun l => l;
     deleteArtifact := fun _ => OK tt |}.

(** A configuration with a fractional count. *)
Definition fractional_configs : Configs :=
  with_skipRecent (Sample.configs 0) (Js.Num 1.5).

End MoreSamples.

(** * Properties *)

(** ** The effect monad *)

Lemma bind_ok {A B} (evs : list Event) (a : A) (f : A -> Eff B) :
  bind (evs, OK a) f = (evs ++ fst (f a), snd (f a)).
Proof. unfold bind. destruct (f a); reflexivity. Qed.

Lemma bind_throw {A B} (evs : list Event) (e : Js.Error) (f : A -> Eff B) :
  bind (evs, Throw e) f = (evs, Throw e).
Proof. reflexivity. Qed.

Lemma bind_ret {A B} (a : A) (f : A -> Eff B) : bind (ret a) f = f a.
Proof. unfold ret, bind. destruct (f a); reflexivity. Qed.

Lemma bind_snd_throw {A B} (m : Eff A) (f : A -> Eff B) (e : Js.Error) :
  snd m = Throw e -> bind m f = (fst m, Throw e).
Proof. destruct m as [evs r]; simpl; intros ->; reflexivity. Qed.

Lemma bind_snd_ok {A B} (m : Eff A) (f : A -> Eff B) (a : A) :
  snd m = OK a -> bind m f = (fst m ++ fst (f a), snd (f a)).
Proof. destruct m as [evs r]; simpl; intros ->; apply bind_ok. Qed.

Lemma all_settled_events {A} (ps : list (Eff A)) :
  fst (all_settled ps) = flat_map fst ps.
Proof.
  induction ps as [|[evs r] ps IH]; simpl; [reflexivity|].
  destruct (all_settled ps) as [evs' rs]; simpl in *. now rewrite IH.
Qed.

Lemma all_settled_result {A} (p : Eff A) (ps : list (Eff A)) :
  snd (all_settled (p :: ps)) =
  match snd p, snd (all_settled ps) with
  | Throw e, _ => Throw e
  | OK _, Throw e => Throw e
  | OK a, OK l => OK (a :: l)
  end.
Proof. destruct p; simpl. destruct (all_settled ps); reflexivity. Qed.

(** ** Digests of traces *)

Lemma deletions_app (l1 l2 : list Event) :
  deletions (l1 ++ l2) = deletions l1 ++ deletions l2.
Proof. apply flat_map_app. Qed.

Lemma listed_runs_app (l1 l2 : list Event) :
  listed_runs (l1 ++ l2) = listed_runs l1 ++ listed_runs l2.
Proof. apply flat_map_app. Qed.

Lemma recent_skips_app (l1 l2 : list Event) :
  recent_skips (l1 ++ l2) = recent_skips l1 ++ recent_skips l2.
Proof. apply flat_map_app. Qed.

Lemma age_checks_app (l1 l2 : list Event) :
  age_checks (l1 ++ l2) = age_checks l1 ++ age_checks l2.
Proof. apply flat_map_app. Qed.

Lemma delete_errors_app (l1 l2 : list Event) :
  delete_errors (l1 ++ l2) = delete_errors l1 ++ delete_errors l2.
Proof. apply flat_map_app. Qed.

(** ** The artifact filter with an integer budget *)

Section Budget.

Variable configs : Configs.
Variable N : nat.
Hypothesis budget : skipRecent configs = Js.of_nat N.

Lemma skipRecentArtifact_budget (c : nat) :
  skipRecentArtifact configs (Z.of_nat c) = (c <? N)%nat.
Proof.
  unfold skipRecentArtifact. rewrite budget. unfold Js.of_nat; simpl.
  destruct (Nat.ltb_spec c N) as [Hlt|Hge].
  - apply andb_true_iff; split.
    + apply negb_true_iff, Z.eqb_neq. lia.
    + apply Z.ltb_lt. lia.
  - apply andb_false_iff; right. apply Z.ltb_ge. lia.
Qed.

Lemma filter_artifacts_budget (l : list Artifact) (c : nat) :
  filter_artifacts configs (Z.of_nat c) l =
  (filter (older_than_cutoff configs) (skipn (N - c) l),
   Z.of_nat (c + Nat.min (N - c) (List.length l)),
   map skip_line (firstn (N - c) l)
   ++ map (filter_line configs) (skipn (N - c) l)).
Proof.
  revert c. induction l as [|a l IH]; intro c.
  - simpl. rewrite skipn_nil, firstn_nil, Nat.min_0_r, Nat.add_0_r.
    reflexivity.
  - cbn [filter_artifacts]. unfold artifact_filter.
    rewrite skipRecentArtifact_budget.
    destruct (Nat.ltb_spec c N) as [Hlt|Hge].
    + replace (Z.of_nat c + 1) with (Z.of_nat (S c)) by lia.
      rewrite IH.
      replace (N - c)%nat with (S (N - S c)) by lia.
      cbn [skipn firstn map List.length app Nat.min].
      rewrite <- Nat.add_succ_comm. reflexivity.
    + rewrite IH.
      replace (N - c)%nat with 0%nat by lia.
      cbn [skipn firstn map List.length app Nat.min filter].
      rewrite Nat.add_0_r.
      change (isBefore (created_at a) (maxAge configs))
        with (older_than_cutoff configs a).
      change (LogFiltering (id a) (name a) (created_at a)
                (older_than_cutoff configs a)) with (filter_line configs a).
      destruct (older_than_cutoff configs a); reflexivity.
Qed.

End Budget.

(** The filter over a concatenation threads the counter from one part to
    the next. *)
Lemma filter_artifacts_app (configs : Configs) (l1 l2 : list Artifact) (c : Z) :
  filter_artifacts configs c (l1 ++ l2) =
  let r1 := filter_artifacts configs c l1 in
  let r2 := filter_artifacts configs (snd (fst r1)) l2 in
  (fst (fst r1) ++ fst (fst r2), snd (fst r2), snd r1 ++ snd r2).
Proof.
  revert c. induction l1 as [|a l1 IH]; intro c; simpl.
  - destruct (filter_artifacts configs c l2) as [[k c'] ls]; reflexivity.
  - destruct (artifact_filter configs c a) as [[keep c1] line].
    rewrite IH. simpl.
    destruct (filter_artifacts configs c1 l1) as [[k1 c2] ls1]; simpl.
    destruct (filter_artifacts configs c2 l2) as [[k2 c3] ls2]; simpl.
    destruct keep; reflexivity.
Qed.

(** ** The lines the two callbacks log *)

Lemma remove_artifact_skips (w : World) (l : list Artifact) :
  recent_skips (flat_map (remove_artifact w) l) = [] /\
  age_checks (flat_map (remove_artifact w) l) = [] /\
  deletions (flat_map (remove_artifact w) l)
  = if devEnv w then [] else map id l.
Proof.
  unfold remove_artifact.
  induction l as [|a l (IH1 & IH2 & IH3)]; simpl.
  - destruct (devEnv w); auto.
  - rewrite recent_skips_app, age_checks_app, deletions_app, IH1, IH2, IH3.
    destruct (devEnv w); auto.
Qed.

Lemma filter_artifacts_requests (configs : Configs) (l : list Artifact) (c : Z) :
  deletions (snd (filter_artifacts configs c l)) = [].
Proof.
  revert c. induction l as [|a l IH]; intro c; simpl; [reflexivity|].
  unfold artifact_filter.
  destruct (skipRecentArtifact configs c);
    [specialize (IH (c + 1)) | specialize (IH c)];
    destruct (filter_artifacts configs _ l) as [[k c'] ls]; simpl in *;
    exact IH.
Qed.

(** ** The pipelines as one scan of the encountered artifacts *)

Lemma pipelines_scan (w : World) (configs : Configs)
  (responses : list (Result (list Artifact))) (c : Z) :
  let scan := filter_artifacts configs c (encountered responses) in
  let ps := pipelines w configs c responses in
  started_deletions (fst ps) = fst (fst scan) /\
  snd ps = snd (fst scan) /\
  recent_skips (flat_map fst (fst ps)) = recent_skips (snd scan) /\
  age_checks (flat_map fst (fst ps)) = age_checks (snd scan) /\
  deletions (flat_map fst (fst ps))
  = if devEnv w then [] else map id (fst (fst scan)).
Proof.
  revert c. induction responses as [|[l|e] rest IH]; intro c.
  - simpl. destruct (devEnv w); auto.
  - cbn [pipelines pipeline encountered flat_map].
    change (flat_map _ rest) with (encountered rest).
    rewrite filter_artifacts_app. cbv zeta.
    pose proof (filter_artifacts_requests configs l c) as Hreq.
    destruct (filter_artifacts configs c l) as [[k1 c1] ls1] eqn:E1.
    cbn [fst snd] in Hreq |- *.
    specialize (IH c1). cbv zeta in IH.
    destruct (pipelines w configs c1 rest) as [ps c2] eqn:E2.
    destruct (filter_artifacts configs c1 (encountered rest))
      as [[k2 c3] ls2] eqn:E3.
    cbn [fst snd started_deletions flat_map] in IH |- *.
    destruct IH as (H1 & H2 & H3 & H4 & H5).
    destruct (remove_artifact_skips w k1) as (R1 & R2 & R3).
    rewrite !recent_skips_app, !age_checks_app, !deletions_app.
    rewrite H1, H2, H3, H4, H5, R1, R2, R3, Hreq, !app_nil_r.
    repeat split.
    cbn [app]. destruct (devEnv w); [reflexivity|]. now rewrite map_app.
  - cbn [pipelines pipeline encountered flat_map].
    change (flat_map _ rest) with (encountered rest).
    specialize (IH c). cbv zeta in IH.
    destruct (pipelines w configs c rest) as [ps c2] eqn:E2.
    cbn [fst snd started_deletions flat_map app] in IH |- *. exact IH.
Qed.

(** ** Which stage logs what *)

Lemma flat_map_quiet {B} (d : Event -> list B) (Q : Event -> Prop)
  (evs : list Event) :
  Forall Q evs -> (forall ev, Q ev -> d ev = []) -> flat_map d evs = [].
Proof.
  intros HQ Hd. induction HQ as [|ev evs Hev _ IH]; simpl; [reflexivity|].
  now rewrite (Hd ev Hev), IH.
Qed.

(** Closes the side condition of [flat_map_quiet]: no event of the stage
    contributes to the digest. *)
Ltac no_contribution :=
  let stage := fresh "stage" in
  intros [] stage; solve [reflexivity | destruct stage].

Lemma run_filter_events (configs : Configs) (tagged : option (list string))
  (now : instant) (runs : list WorkflowRun) :
  Forall run_filter_event (fst (filter_runs configs tagged now runs)).
Proof.
  induction runs as [|r runs IH]; simpl; [constructor|].
  unfold run_filter, lift.
  destruct (skipTaggedWorkflow configs tagged r) as [[|]|e]; simpl;
    try constructor;
    try (destruct (isTooOld now r); simpl);
    destruct (filter_runs configs tagged now runs) as [evs [l|e]];
    simpl in *; repeat constructor; auto; now rewrite app_nil_r.
Qed.

Lemma listing_events (configs : Configs) (runs : list WorkflowRun) :
  Forall listing_event (flat_map (request_artifacts configs) runs).
Proof.
  induction runs as [|r runs IH]; simpl; repeat constructor; exact IH.
Qed.

Lemma delete_reports (w : World) (l : list Artifact) :
  Forall delete_report (fst (all_settled (map (delete_promise w) l))).
Proof.
  rewrite all_settled_events.
  induction l as [|a l IH]; simpl; [constructor|].
  apply Forall_app; split; [|exact IH].
  unfold delete_promise.
  destruct (devEnv w); [constructor|].
  destruct (deleteArtifact w (id a)); repeat constructor.
Qed.

Lemma filter_artifacts_events (configs : Configs) (l : list Artifact) (c : Z) :
  Forall pipeline_event (snd (filter_artifacts configs c l)).
Proof.
  revert c. induction l as [|a l IH]; intro c; simpl; [constructor|].
  unfold artifact_filter.
  destruct (skipRecentArtifact configs c);
    [specialize (IH (c + 1)) | specialize (IH c)];
    destruct (filter_artifacts configs _ l) as [[k c'] ls];
    constructor; simpl; auto.
Qed.

Lemma pipeline_events (w : World) (configs : Configs)
  (responses : list (Result (list Artifact))) (c : Z) :
  Forall pipeline_event (flat_map fst (fst (pipelines w configs c responses))).
Proof.
  revert c. induction responses as [|[l|e] rest IH]; intro c;
    cbn [pipelines pipeline]; [constructor| |].
  - pose proof (filter_artifacts_events configs l c) as Hl.
    destruct (filter_artifacts configs c l) as [[k c1] ls].
    specialize (IH c1). destruct (pipelines w configs c1 rest) as [ps c2].
    cbn [fst snd flat_map] in *. rewrite !Forall_app. repeat split; auto.
    unfold remove_artifact. clear.
    induction k as [|a k IHk]; simpl; [constructor|].
    destruct (devEnv w); repeat constructor; auto.
  - specialize (IH c). destruct (pipelines w configs c rest) as [ps c2].
    cbn [fst snd flat_map throw app] in *. exact IH.
Qed.

(** ** The joins *)

(** The [catch] of every deletion makes its promise resolve. *)
Lemma delete_promises_resolve (w : World) (l : list Artifact) :
  snd (all_settled (map (delete_promise w) l)) = OK (map (fun _ => tt) l).
Proof.
  induction l as [|a l IH]; [reflexivity|].
  cbn [map]. rewrite all_settled_result, IH.
  unfold delete_promise.
  destruct (devEnv w); [reflexivity|].
  destruct (deleteArtifact w (id a)) as [[]|e]; reflexivity.
Qed.

(** The join of the pipelines rejects exactly when a listing failed, with
    the first failure. *)
Lemma pipelines_join (w : World) (configs : Configs)
  (responses : list (Result (list Artifact))) (c : Z) :
  match snd (all_settled (fst (pipelines w configs c responses))) with
  | Throw e => first_rejection responses = Some e
  | OK _ => first_rejection responses = None
  end.
Proof.
  revert c. induction responses as [|[l|e] rest IH]; intro c;
    cbn [pipelines pipeline]; [reflexivity| |].
  - destruct (filter_artifacts configs c l) as [[k c1] ls].
    specialize (IH c1). destruct (pipelines w configs c1 rest) as [ps c2].
    cbn [fst snd all_settled first_rejection] in *.
    destruct (all_settled ps) as [evs [rs|e]]; exact IH.
  - specialize (IH c). destruct (pipelines w configs c rest) as [ps c2].
    cbn [fst snd all_settled first_rejection throw] in *.
    destruct (all_settled ps) as [evs rs]; reflexivity.
Qed.

(** ** The fan-out, stage by stage *)

Section FanOut.

Variable w : World.
Variable configs : Configs.
Variable taggedCommits : option (list string).
Variable workflowRuns surviving : list WorkflowRun.
Hypothesis filtered :
  snd (filter_runs configs taggedCommits (moment_now w) workflowRuns)
  = OK surviving.

Let ps := fst (pipelines w configs 0 (settled_listings w surviving)).

Lemma fan_out_trace :
  fst (fan_out w configs taggedCommits workflowRuns) =
  fst (filter_runs configs taggedCommits (moment_now w) workflowRuns)
  ++ flat_map (request_artifacts configs) surviving
  ++ flat_map fst ps
  ++ fst (all_settled (map (delete_promise w) (started_deletions ps))).
Proof.
  unfold fan_out. rewrite (bind_snd_ok _ _ _ filtered).
  cbn [fst snd]. rewrite bind_ok. cbn [fst snd].
  fold (settled_listings w surviving).
  subst ps. destruct (pipelines w configs 0 (settled_listings w surviving))
    as [ps' c']. cbn [fst snd].
  now rewrite all_settled_events.
Qed.

Lemma fan_out_result :
  snd (fan_out w configs taggedCommits workflowRuns) =
  match first_rejection (settled_listings w surviving) with
  | Some e => Throw e
  | None => OK tt
  end.
Proof.
  unfold fan_out. rewrite (bind_snd_ok _ _ _ filtered).
  cbn [fst snd]. rewrite bind_ok. cbn [fst snd].
  fold (settled_listings w surviving).
  pose proof (pipelines_join w configs (settled_listings w surviving) 0) as J.
  destruct (pipelines w configs 0 (settled_listings w surviving))
    as [ps' c']. cbn [fst snd] in *.
  rewrite delete_promises_resolve.
  destruct (snd (all_settled ps')); rewrite J; reflexivity.
Qed.

End FanOut.

(** ** Pagination *)

Lemma stopPagination_none (now : instant) (page : list WorkflowRun) :
  has_too_old now page = false -> stopPagination now page = None.
Proof.
  unfold has_too_old, stopPagination.
  induction page as [|r page IH]; simpl; [reflexivity|].
  destruct (isTooOld now r); simpl; [discriminate | exact IH].
Qed.

Lemma stopPagination_some (now : instant) (page : list WorkflowRun) :
  has_too_old now page = true -> stopPagination now page <> None.
Proof.
  unfold has_too_old, stopPagination.
  induction page as [|r page IH]; simpl; [discriminate|].
  destruct (isTooOld now r); simpl; [discriminate | exact IH].
Qed.

(** Pages without a too-old run are all requested and all returned. *)
Lemma paginate_runs_clean (per_page : Z) (branch : string) (now : instant)
  (before : list (list WorkflowRun)) (rest : list (Result (list WorkflowRun)))
  (start : nat) :
  Forall (fun page => has_too_old now page = false) before ->
  paginate_runs per_page branch now start (map OK before ++ rest) =
  let r := paginate_runs per_page branch now (start + List.length before) rest in
  (page_requests per_page branch start (List.length before) ++ fst r,
   match snd r with
   | OK l => OK (List.concat before ++ l)
   | Throw e => Throw e
   end).
Proof.
  intros Hclean. revert start.
  induction Hclean as [|page before Hpage _ IH]; intro start.
  - simpl. rewrite Nat.add_0_r.
    destruct (paginate_runs per_page branch now start rest) as [evs [l|e]];
      reflexivity.
  - cbn [map app paginate_runs]. unfold emit, lift.
    rewrite bind_ok. cbn [fst snd]. rewrite bind_ok.
    rewrite (stopPagination_none _ _ Hpage). rewrite IH. cbv zeta.
    cbn [List.length]. rewrite <- Nat.add_succ_comm.
    destruct (paginate_runs per_page branch now (S start + List.length before) rest)
      as [evs [l|e]]; cbn [fst snd bind ret app List.concat page_requests seq map].
    + now rewrite !app_nil_r, app_assoc.
    + reflexivity.
Qed.

(** C2: an artifact that the recent-count rule does not exclude is
    selected for deletion exactly when it was created strictly before the
    cutoff; one created at the cutoff is kept.  The counter is left as it
    was. *)
Theorem age_filter_is_strict (configs : Configs) (counter : Z) (a : Artifact) :
  skipRecentArtifact configs counter = false ->
  (fst (fst (artifact_filter configs counter a)) = true
   <-> created_at a < maxAge configs) /\
  (created_at a = maxAge configs ->
   fst (fst (artifact_filter configs counter a)) = false) /\
  (fst (fst (filter_artifacts configs counter [a])) = [a]
   <-> created_at a < maxAge configs) /\
  snd (fst (artifact_filter configs counter a)) = counter.
Proof.
  intros Hrule. unfold filter_artifacts, artifact_filter, isBefore.
  rewrite Hrule. cbn [fst snd].
  destruct (Z.ltb_spec (created_at a) (maxAge configs)) as [Hlt|Hge].
  - repeat split; auto; intros; try lia.
  - repeat split; auto; intros; try lia; try discriminate.
Qed.

Lemma age_filter_is_strict_witness :
  fst (fst (artifact_filter (Sample.configs 0) 0
              (mkArtifact 5 "logs" (70 * Sample.day)))) = false.
Proof.
  apply (age_filter_is_strict (Sample.configs 0) 0
           (mkArtifact 5 "logs" (70 * Sample.day))); reflexivity.
Defined.

(** C3: a run is too old exactly when it was created before the clock
    reading minus ten days, whatever the configured cutoff; the pages
    before the first one that holds such a run are returned whole, that
    page is returned whole too, and no later page is requested. *)
Theorem too_old_stops_pagination (w : World) (configs : Configs)
  (before : list (list WorkflowRun)) (page : list WorkflowRun)
  (after : list (Result (list WorkflowRun))) :
  (forall r, isTooOld (moment_now w) r = true
             <-> run_created_at r < moment_now w - 10 * 24 * 60 * 60 * 1000) /\
  (forall cutoff, list_runs w (with_maxAge configs cutoff) = list_runs w configs) /\
  (workflowRunPages w = map OK before ++ OK page :: after ->
   Forall (fun p => has_too_old (moment_now w) p = false) before ->
   has_too_old (moment_now w) page = true ->
   list_runs w configs =
   (page_requests (perPage configs + 200) (branchToConsider configs) 0
      (S (List.length before)),
    OK (List.concat before ++ page))).
Proof.
  split; [|split].
  - intro r. unfold isTooOld, ten_days. apply Z.ltb_lt.
  - reflexivity.
  - intros Hpages Hclean Hold. unfold list_runs. rewrite Hpages.
    rewrite (paginate_runs_clean _ _ _ _ _ _ Hclean). cbv zeta.
    cbn [paginate_runs]. unfold emit, lift. rewrite !bind_ok. cbn [fst snd].
    pose proof (stopPagination_some _ _ Hold) as Hstop.
    destruct (stopPagination (moment_now w) page); [|congruence].
    cbn [fst snd ret app]. unfold page_requests.
    rewrite seq_S, map_app. reflexivity.
Qed.

Lemma too_old_stops_pagination_witness :
  list_runs (Sample.world "30 days" "" "") (Sample.configs 0) =
  ([ReqListRuns 300 "master" 0; ReqListRuns 300 "master" 1],
   OK (Sample.runs_page1 ++ Sample.runs_page2)).
Proof.
  apply (proj2 (proj2 (too_old_stops_pagination
                         (Sample.world "30 days" "" "") (Sample.configs 0)
                         [Sample.runs_page1] Sample.runs_page2
                         [OK Sample.runs_page3]))).
  - reflexivity.
  - repeat constructor.
  - reflexivity.
Defined.

(** ** Digests of the filter lines *)

Lemma skip_lines_digest (l : list Artifact) :
  recent_skips (map skip_line l) = map id l /\
  age_checks (map skip_line l) = [].
Proof.
  induction l as [|a l [IH1 IH2]]; simpl; [auto|].
  now rewrite IH1, IH2.
Qed.

Lemma filter_lines_digest (configs : Configs) (l : list Artifact) :
  recent_skips (map (filter_line configs) l) = [] /\
  age_checks (map (filter_line configs) l)
  = map (fun a => (id a, older_than_cutoff configs a)) l.
Proof.
  induction l as [|a l [IH1 IH2]]; simpl; [auto|].
  now rewrite IH1, IH2.
Qed.

(** The digests of a whole fan-out are those of its pipelines. *)
Lemma fan_out_digests (w : World) (configs : Configs)
  (taggedCommits : option (list string))
  (workflowRuns surviving : list WorkflowRun) :
  snd (filter_runs configs taggedCommits (moment_now w) workflowRuns)
  = OK surviving ->
  let trace := fst (fan_out w configs taggedCommits workflowRuns) in
  let lines :=
    flat_map fst (fst (pipelines w configs 0 (settled_listings w surviving))) in
  recent_skips trace = recent_skips lines /\
  age_checks trace = age_checks lines /\
  deletions trace = deletions lines /\
  listed_runs trace = map run_id surviving.
Proof.
  intros Hf. cbv zeta. rewrite (fan_out_trace _ _ _ _ _ Hf).
  pose proof (run_filter_events configs taggedCommits (moment_now w)
                workflowRuns) as S1.
  pose proof (listing_events configs surviving) as S2.
  pose proof (pipeline_events w configs (settled_listings w surviving) 0) as S3.
  pose proof (delete_reports w (started_deletions
    (fst (pipelines w configs 0 (settled_listings w surviving))))) as S4.
  rewrite !recent_skips_app, !age_checks_app, !deletions_app,
    !listed_runs_app.
  repeat split.
  - unfold recent_skips at 1 2 4.
    rewrite (flat_map_quiet _ _ _ S1), (flat_map_quiet _ _ _ S2),
      (flat_map_quiet _ _ _ S4);
      try no_contribution.
    now rewrite app_nil_r.
  - unfold age_checks at 1 2 4.
    rewrite (flat_map_quiet _ _ _ S1), (flat_map_quiet _ _ _ S2),
      (flat_map_quiet _ _ _ S4);
      try no_contribution.
    now rewrite app_nil_r.
  - unfold deletions at 1 2 4.
    rewrite (flat_map_quiet _ _ _ S1), (flat_map_quiet _ _ _ S2),
      (flat_map_quiet _ _ _ S4);
      try no_contribution.
    now rewrite app_nil_r.
  - unfold listed_runs at 1 3 4.
    rewrite (flat_map_quiet _ _ _ S1), (flat_map_quiet _ _ _ S3),
      (flat_map_quiet _ _ _ S4);
      try no_contribution.
    cbn [app]. rewrite app_nil_r. clear.
    induction surviving as [|r l IH]; simpl; [reflexivity|]. now rewrite <- IH.
Qed.

(** With an integer budget [N], the fan-out skips the first [N] artifacts
    it meets and age-checks the others. *)
Lemma fan_out_budget (w : World) (configs : Configs) (N : nat)
  (taggedCommits : option (list string))
  (workflowRuns surviving : list WorkflowRun) :
  skipRecent configs = Js.of_nat N ->
  snd (filter_runs configs taggedCommits (moment_now w) workflowRuns)
  = OK surviving ->
  let all := encountered (settled_listings w surviving) in
  let trace := fst (fan_out w configs taggedCommits workflowRuns) in
  recent_skips trace = map id (firstn N all) /\
  age_checks trace
  = map (fun a => (id a, older_than_cutoff configs a)) (skipn N all) /\
  deletions trace
  = if devEnv w then []
    else map id (filter (older_than_cutoff configs) (skipn N all)).
Proof.
  intros HN Hf. cbv zeta.
  destruct (fan_out_digests w configs taggedCommits workflowRuns surviving Hf)
    as (D1 & D2 & D3 & _).
  destruct (pipelines_scan w configs (settled_listings w surviving) 0)
    as (_ & _ & P1 & P2 & P3).
  rewrite D1, D2, D3, P1, P2, P3.
  change 0 with (Z.of_nat 0).
  rewrite (filter_artifacts_budget configs N HN). cbn [fst snd].
  rewrite Nat.sub_0_r, recent_skips_app, age_checks_app.
  destruct (skip_lines_digest
              (firstn N (encountered (settled_listings w surviving))))
    as [K1 K2].
  destruct (filter_lines_digest configs
              (skipn N (encountered (settled_listings w surviving))))
    as [F1 F2].
  rewrite K1, K2, F1, F2, app_nil_r. auto.
Qed.

(** C1: the recent-count rule is tried first and decides alone when it
    applies: an artifact it excludes is not age-checked, whatever its age.
    With skip-recent set to [N], the first [N] artifacts the scan meets
    (listings taken in the order they settle, one counter for all of them)
    are skipped, and exactly the artifacts met after them are age-checked;
    those created before the cutoff are the ones deleted. *)
Theorem recent_count_precedes_age (w : World) (configs : Configs) (N : nat)
  (taggedCommits : option (list string))
  (workflowRuns surviving : list WorkflowRun) :
  skipRecent configs = Js.of_nat N ->
  snd (filter_runs configs taggedCommits (moment_now w) workflowRuns)
  = OK surviving ->
  let all := encountered (settled_listings w surviving) in
  let trace := fst (fan_out w configs taggedCommits workflowRuns) in
  (forall counter a,
      skipRecentArtifact configs counter = true ->
      artifact_filter configs counter a = (false, counter + 1, skip_line a)) /\
  recent_skips trace = map id (firstn N all) /\
  age_checks trace
  = map (fun a => (id a, older_than_cutoff configs a)) (skipn N all) /\
  deletions trace
  = if devEnv w then []
    else map id (filter (older_than_cutoff configs) (skipn N all)).
Proof.
  intros HN Hf. cbv zeta. split.
  - intros counter a Hrule. unfold artifact_filter. now rewrite Hrule.
  - exact (fan_out_budget w configs N taggedCommits workflowRuns surviving
             HN Hf).
Qed.

(** Skip-recent 3 and one run with five artifacts: the first three are
    skipped, the last two age-checked. *)
Lemma recent_count_precedes_age_witness :
  let trace :=
    fst (fan_out (Sample.five_world "3") (Sample.configs 3) None
           [Sample.recent_run]) in
  recent_skips trace = [1; 2; 3] /\
  age_checks trace = [(4, true); (5, false)] /\
  deletions trace = [4].
Proof.
  cbv zeta.
  refine (proj2 (recent_count_precedes_age (Sample.five_world "3")
                   (Sample.configs 3) 3 None
                   [Sample.recent_run] [Sample.recent_run] _ _));
    reflexivity.
Defined.

(** C9, the claim as written fails: configuration resolution accepts the
    counts 1.5 and -1; with 1.5 and five artifacts the rule excludes two
    artifacts and the counter ends at 2, above the count; with -1 the
    counter, at 0 from the start, is above the count and nothing is
    excluded, where the minimum of the count and the number of artifacts
    would be negative. *)
Lemma skipped_counter_counterexample :
  (snd (getConfigs (Sample.five_world "1.5"))
   = OK MoreSamples.fractional_configs /\
   recent_skips (fst (run (Sample.five_world "1.5"))) = [1; 2] /\
   snd (pipelines (Sample.five_world "1.5") MoreSamples.fractional_configs 0
          (settled_listings (Sample.five_world "1.5") [Sample.recent_run])) = 2 /\
   (1.5 < inject_Z 2)%Q) /\
  (snd (getConfigs (Sample.five_world "-1"))
   = OK (with_skipRecent (Sample.configs 0) (Js.Num (-1))) /\
   recent_skips (fst (run (Sample.five_world "-1"))) = [] /\
   snd (pipelines (Sample.five_world "-1")
          (with_skipRecent (Sample.configs 0) (Js.Num (-1))) 0
          (settled_listings (Sample.five_world "-1") [Sample.recent_run])) = 0 /\
   (-1 < inject_Z 0)%Q).
Proof. repeat split. Qed.

(** C9, amended: when the configured skip-recent value is a non-negative
    integer [N], the counter starts at zero, goes up by exactly one for
    each artifact the recent-count rule excludes and stays put otherwise;
    after the first [k] artifacts of the scan it stands at the minimum of
    [N] and [k], so it never exceeds [N]; and over the whole invocation
    the rule excludes the minimum of [N] and the number of artifacts
    met. *)
Theorem skipped_counter_budget (w : World) (configs : Configs) (N : nat)
  (taggedCommits : option (list string))
  (workflowRuns surviving : list WorkflowRun) :
  skipRecent configs = Js.of_nat N ->
  snd (filter_runs configs taggedCommits (moment_now w) workflowRuns)
  = OK surviving ->
  let all := encountered (settled_listings w surviving) in
  let counter_after l := snd (fst (filter_artifacts configs 0 l)) in
  (forall c a,
      snd (fst (artifact_filter configs c a))
      = if skipRecentArtifact configs c then c + 1 else c) /\
  (forall k, (k <= List.length all)%nat ->
      counter_after (firstn k all) = Z.of_nat (Nat.min N k) /\
      counter_after (firstn k all) <= Z.of_nat N) /\
  snd (pipelines w configs 0 (settled_listings w surviving))
  = Z.of_nat (Nat.min N (List.length all)) /\
  List.length (recent_skips (fst (fan_out w configs taggedCommits workflowRuns)))
  = Nat.min N (List.length all).
Proof.
  intros HN Hf. cbv zeta. split; [|split; [|split]].
  - intros c a. unfold artifact_filter.
    destruct (skipRecentArtifact configs c); reflexivity.
  - intros k Hk. change 0 with (Z.of_nat 0).
    rewrite (filter_artifacts_budget configs N HN). cbn [fst snd].
    rewrite Nat.sub_0_r, Nat.add_0_l, length_firstn.
    rewrite (Nat.min_l k _ Hk). split; [reflexivity | lia].
  - destruct (pipelines_scan w configs (settled_listings w surviving) 0)
      as (_ & P & _).
    rewrite P. change 0 with (Z.of_nat 0).
    rewrite (filter_artifacts_budget configs N HN). cbn [fst snd].
    now rewrite Nat.sub_0_r, Nat.add_0_l.
  - destruct (fan_out_budget w configs N taggedCommits
                workflowRuns surviving HN Hf) as [R _].
    now rewrite R, length_map, length_firstn.
Qed.

Lemma skipped_counter_budget_witness :
  List.length (recent_skips (fst (fan_out (Sample.five_world "3")
                                    (Sample.configs 3) None
                                    [Sample.recent_run]))) = 3%nat /\
  List.length (recent_skips (fst (fan_out (Sample.five_world "7")
                                    (Sample.configs 7) None
                                    [Sample.recent_run]))) = 5%nat.
Proof.
  split.
  - refine (proj2 (proj2 (proj2 (skipped_counter_budget
      (Sample.five_world "3") (Sample.configs 3) 3 None
      [Sample.recent_run] [Sample.recent_run] _ _)))); reflexivity.
  - refine (proj2 (proj2 (proj2 (skipped_counter_budget
      (Sample.five_world "7") (Sample.configs 7) 7 None
      [Sample.recent_run] [Sample.recent_run] _ _)))); reflexivity.
Defined.

(** ** The tag stage and the run filter *)

(** The tagged commits are fetched exactly when skip-tags is set. *)
Lemma tag_stage_result (w : World) (configs : Configs)
  (taggedCommits : option (list string)) :
  snd (tag_stage w configs) = OK taggedCommits ->
  if option_truthy (skipTags configs)
  then exists tags, listTags w = OK tags
                    /\ taggedCommits = Some (map commit_sha tags)
  else taggedCommits = None.
Proof.
  unfold tag_stage, getTaggedCommits, emit, lift.
  destruct (option_truthy (skipTags configs)).
  - rewrite bind_ok. cbn [fst snd].
    destruct (listTags w) as [tags|e]; simpl; [|discriminate].
    intros [= <-]. now exists tags.
  - simpl. now intros [= <-].
Qed.

Lemma run_filter_spec (configs : Configs) (taggedCommits : option (list string))
  (now : instant) (r : WorkflowRun) :
  (option_truthy (skipTags configs) = true -> taggedCommits <> None) ->
  run_filter configs taggedCommits now r =
  (run_filter_lines configs (tagged_set taggedCommits) now r,
   OK (negb (run_excluded configs (tagged_set taggedCommits) now r))).
Proof.
  intros Htags.
  unfold run_filter, run_filter_lines, run_excluded, skipTaggedWorkflow.
  destruct (option_truthy (skipTags configs)) eqn:Hskip.
  - destruct taggedCommits as [l|]; [|now destruct Htags].
    cbn [tagged_set andb].
    destruct (includes l (head_sha r)); [reflexivity|].
    destruct (isTooOld now r); reflexivity.
  - cbn [andb orb]. destruct (isTooOld now r); reflexivity.
Qed.

Lemma filter_runs_spec (configs : Configs) (taggedCommits : option (list string))
  (now : instant) (runs : list WorkflowRun) :
  (option_truthy (skipTags configs) = true -> taggedCommits <> None) ->
  filter_runs configs taggedCommits now runs =
  (flat_map (run_filter_lines configs (tagged_set taggedCommits) now) runs,
   OK (filter (fun r => negb (run_excluded configs (tagged_set taggedCommits)
                                now r)) runs)).
Proof.
  intros Htags. induction runs as [|r runs IH]; [reflexivity|].
  cbn [filter_runs flat_map filter].
  rewrite IH, (run_filter_spec _ _ _ _ Htags), !bind_ok.
  cbn [fst snd ret]. rewrite app_nil_r.
  destruct (negb (run_excluded configs (tagged_set taggedCommits) now r));
    reflexivity.
Qed.

Lemma includes_In (l : list string) (sha : string) :
  includes l sha = true <-> In sha l.
Proof.
  unfold includes. rewrite existsb_exists. split.
  - intros (x & Hin & Heq). apply String.eqb_eq in Heq. now subst.
  - intros Hin. exists sha. split; [exact Hin | apply String.eqb_refl].
Qed.

(** C4: with the tagged commits as the tag stage left them, the run-level
    filter drops a run exactly when skip-tags is set and the run's head
    commit is tagged, or the run is too old; the tag test comes first (a
    run that is both is logged as tagged); the artifact listings requested
    are those of the runs that remain, and no others; with skip-tags unset
    the membership test is not evaluated and excludes nothing, whatever
    the tagged-commit set is. *)
Theorem run_filter_excludes (w : World) (configs : Configs)
  (taggedCommits : option (list string)) (workflowRuns : list WorkflowRun) :
  snd (tag_stage w configs) = OK taggedCommits ->
  let now := moment_now w in
  let tagged := tagged_set taggedCommits in
  let excluded r :=
    (option_truthy (skipTags configs) = true /\ In (head_sha r) tagged)
    \/ isTooOld now r = true in
  exists surviving,
    snd (filter_runs configs taggedCommits now workflowRuns) = OK surviving /\
    (forall r, In r surviving <-> In r workflowRuns /\ ~ excluded r) /\
    listed_runs (fst (fan_out w configs taggedCommits workflowRuns))
    = map run_id surviving /\
    fst (filter_runs configs taggedCommits now workflowRuns)
    = flat_map (fun r =>
        if option_truthy (skipTags configs) && includes tagged (head_sha r)
        then [LogSkipTagged (head_sha r)]
        else if isTooOld now r then [LogSkipTooOld (head_sha r)] else [])
        workflowRuns /\
    (option_truthy (skipTags configs) = false ->
     forall any r, skipTaggedWorkflow configs any r = OK false).
Proof.
  intros Hstage. cbv zeta.
  assert (Htags : option_truthy (skipTags configs) = true ->
                  taggedCommits <> None).
  { intros Hskip. pose proof (tag_stage_result _ _ _ Hstage) as H.
    rewrite Hskip in H. destruct H as (tags & _ & ->). discriminate. }
  pose proof (filter_runs_spec configs taggedCommits (moment_now w)
                workflowRuns Htags) as Hspec.
  eexists. split; [rewrite Hspec; reflexivity|].
  split; [|split; [|split]].
  - intro r. rewrite filter_In. unfold run_excluded.
    rewrite negb_true_iff, orb_false_iff, andb_false_iff.
    rewrite <- includes_In.
    split; intros [Hin H]; (split; [exact Hin|]).
    + intros [[Hs Hi]|Hold]; destruct H as [[H|H] H']; congruence.
    + destruct (option_truthy (skipTags configs));
        destruct (includes (tagged_set taggedCommits) (head_sha r));
        destruct (isTooOld (moment_now w) r); auto;
        exfalso; apply H; auto.
  - apply (fan_out_digests w configs taggedCommits workflowRuns).
    rewrite Hspec; reflexivity.
  - rewrite Hspec. reflexivity.
  - intros Hskip any r. unfold skipTaggedWorkflow. now rewrite Hskip.
Qed.

Lemma run_filter_excludes_witness :
  listed_runs (fst (fan_out (Sample.world "30 days" "true" "")
                      Sample.tagged_configs (Some ["bbb"])
                      (Sample.runs_page1 ++ Sample.runs_page2)))
  = [11; 13].
Proof.
  destruct (run_filter_excludes (Sample.world "30 days" "true" "")
              Sample.tagged_configs (Some ["bbb"])
              (Sample.runs_page1 ++ Sample.runs_page2)
              eq_refl) as (surviving & Hs & _ & Hl & _).
  rewrite Hl. injection Hs as <-. reflexivity.
Defined.

(** ** The stages of [run] *)

Lemma run_unfold (w : World) :
  run w =
  match getConfigs w with
  | (evs0, Throw e) => (evs0, Throw e)
  | (evs0, OK configs) =>
      match tag_stage w configs with
      | (evs1, Throw e) => (evs0 ++ evs1, Throw e)
      | (evs1, OK taggedCommits) =>
          match list_runs w configs with
          | (evs2, Throw e) => (evs0 ++ evs1 ++ evs2, Throw e)
          | (evs2, OK workflowRuns) =>
              (evs0 ++ evs1 ++ evs2
               ++ fst (fan_out w configs taggedCommits workflowRuns),
               snd (fan_out w configs taggedCommits workflowRuns))
          end
      end
  end.
Proof.
  unfold run.
  destruct (getConfigs w) as [evs0 [configs|e]]; [|reflexivity].
  rewrite bind_ok.
  destruct (tag_stage w configs) as [evs1 [taggedCommits|e]]; [|reflexivity].
  rewrite bind_ok.
  destruct (list_runs w configs) as [evs2 [workflowRuns|e]]; [|reflexivity].
  rewrite bind_ok. reflexivity.
Qed.

Lemma bind_events {A B} (P : Event -> Prop) (m : Eff A) (f : A -> Eff B) :
  Forall P (fst m) -> (forall a, Forall P (fst (f a))) ->
  Forall P (fst (bind m f)).
Proof.
  intros Hm Hf. destruct m as [evs [a|e]]; [|exact Hm].
  rewrite bind_ok. apply Forall_app. split; [exact Hm | apply Hf].
Qed.

Lemma readInput_silent (w : World) (key : string) (isRequired : bool) :
  fst (readInput w key isRequired) = [].
Proof.
  unfold readInput, lift. destruct (devEnv w); [reflexivity|].
  destruct (core_getInput w key isRequired); reflexivity.
Qed.

Lemma getConfigs_events (w : World) : Forall early_event (fst (getConfigs w)).
Proof.
  unfold getConfigs.
  repeat (apply bind_events; [|intro]);
    try rewrite readInput_silent;
    repeat match goal with
           | |- context [match ?x with _ => _ end] => destruct x
           end;
    try solve [repeat constructor].
  unfold split_value.
  match goal with |- context [match ?x with _ => _ end] => destruct x end;
    constructor.
Qed.

Lemma tag_stage_events (w : World) (configs : Configs) :
  Forall early_event (fst (tag_stage w configs)).
Proof.
  unfold tag_stage, getTaggedCommits, emit, lift.
  destruct (option_truthy (skipTags configs)); [|constructor].
  rewrite bind_ok. destruct (listTags w); repeat constructor.
Qed.

Lemma paginate_runs_events (per_page : Z) (branch : string) (now : instant)
  (pages : list (Result (list WorkflowRun))) (start : nat) :
  Forall early_event (fst (paginate_runs per_page branch now start pages)).
Proof.
  revert start. induction pages as [|[data|e] pages IH]; intro start;
    cbn [paginate_runs]; unfold emit, lift.
  - constructor.
  - rewrite !bind_ok. cbn [fst snd app]. constructor; [exact I|].
    destruct (stopPagination now data); [constructor|].
    apply bind_events; [apply IH | constructor].
  - rewrite bind_ok. repeat constructor.
Qed.

(** The events of the first three stages carry no request to delete and
    no report about a deletion. *)
Lemma early_stages_quiet (evs : list Event) :
  Forall early_event evs ->
  deletions evs = [] /\ delete_errors evs = [] /\ failures evs = [] /\
  recent_skips evs = [] /\ listed_runs evs = [].
Proof.
  intros Hearly. repeat split;
    apply (flat_map_quiet _ _ _ Hearly); no_contribution.
Qed.

(** ** Configuration resolution *)

Section Resolution.

Variable w : World.
Variable cutoff : instant.
Variable v : Js.value.
Hypothesis ambient : ambient_resolves w cutoff.
Hypothesis supplied : snd (readInput w (inputKeys.SKIP_RECENT w) false) = OK v.

(** A supplied value that is not a number is refused. *)
Lemma getConfigs_refuses :
  Js.truthy v = true -> Js.isNaN (Js.Number v) = true ->
  snd (getConfigs w) = Throw skipRecentError.
Proof.
  intros Htruthy Hnan.
  destruct ambient as (Hrepo & (ageInput & Hage & Hsub) & (tv & Htags)).
  unfold getConfigs.
  destruct (process_env w "GITHUB_REPOSITORY") as [repository|]; [|congruence].
  cbn [split_value]. unfold ret at 1. rewrite bind_ok.
  rewrite (bind_snd_ok _ _ _ Hage). cbn [fst snd split_value].
  unfold ret at 1. rewrite bind_ok. cbn [fst snd].
  unfold lift at 1. rewrite Hsub, bind_ok. cbn [fst snd].
  unfold emit. rewrite bind_ok. cbn [fst snd].
  rewrite (bind_snd_ok _ _ _ supplied). cbn [fst snd].
  rewrite Htruthy, Hnan. reflexivity.
Qed.

(** Any other value goes through, and the configuration carries its
    numeric reading. *)
Lemma getConfigs_accepts :
  Js.truthy v = false \/ Js.isNaN (Js.Number v) = false ->
  exists configs,
    snd (getConfigs w) = OK configs /\
    skipRecent configs = Js.Number v /\
    maxAge configs = cutoff.
Proof.
  intros Hfine.
  destruct ambient as (Hrepo & (ageInput & Hage & Hsub) & (tv & Htags)).
  unfold getConfigs.
  destruct (process_env w "GITHUB_REPOSITORY") as [repository|]; [|congruence].
  cbn [split_value]. unfold ret at 1. rewrite bind_ok.
  rewrite (bind_snd_ok _ _ _ Hage). cbn [fst snd split_value].
  unfold ret at 1. rewrite bind_ok. cbn [fst snd].
  unfold lift at 1. rewrite Hsub, bind_ok. cbn [fst snd].
  unfold emit. rewrite bind_ok. cbn [fst snd].
  rewrite (bind_snd_ok _ _ _ supplied). cbn [fst snd].
  assert (Hcheck :
    (if Js.truthy v
     then if Js.isNaN (Js.Number v) then throw skipRecentError else ret tt
     else ret tt) = ret tt).
  { destruct Hfine as [-> | Hnum]; [reflexivity|].
    rewrite Hnum. destruct (Js.truthy v); reflexivity. }
  rewrite Hcheck. unfold ret at 1. rewrite bind_ok. cbn [fst snd].
  unfold lift at 1. rewrite bind_ok. cbn [fst snd].
  rewrite (bind_snd_ok _ _ _ Htags). cbn [fst snd ret].
  eexists. repeat split.
Qed.

End Resolution.

(** ** When the recent-count rule is inactive *)

Lemma falsy_input_inactive (v : Js.value) :
  Js.truthy v = false -> Js.number_truthy (Js.Number v) = false.
Proof.
  destruct v as [|s]; [reflexivity|].
  destruct s; [reflexivity | discriminate].
Qed.

Lemma negative_inactive (configs : Configs) (c : Z) :
  Js.negative (skipRecent configs) = true -> 0 <= c ->
  skipRecentArtifact configs c = false.
Proof.
  unfold skipRecentArtifact, Js.negative, Js.gt_int, Js.number_truthy.
  destruct (skipRecent configs) as [|q|neg]; try discriminate.
  - intros Hneg Hc. apply Z.ltb_lt in Hneg.
    apply andb_false_iff; right. apply Z.ltb_ge. nia.
  - intros -> _. reflexivity.
Qed.

Lemma filter_artifacts_inactive (configs : Configs) (c : Z) (l : list Artifact) :
  skipRecentArtifact configs c = false ->
  filter_artifacts configs c l =
  (filter (older_than_cutoff configs) l, c, map (filter_line configs) l).
Proof.
  intros Hrule. induction l as [|a l IH]; [reflexivity|].
  cbn [filter_artifacts]. unfold artifact_filter. rewrite Hrule, IH.
  cbn [filter map].
  change (isBefore (created_at a) (maxAge configs))
    with (older_than_cutoff configs a).
  change (LogFiltering (id a) (name a) (created_at a)
            (older_than_cutoff configs a)) with (filter_line configs a).
  destruct (older_than_cutoff configs a); reflexivity.
Qed.

(** With the rule inactive the fan-out skips nothing and age-checks every
    artifact it meets. *)
Lemma fan_out_inactive (w : World) (configs : Configs)
  (taggedCommits : option (list string))
  (workflowRuns surviving : list WorkflowRun) :
  skipRecentArtifact configs 0 = false ->
  snd (filter_runs configs taggedCommits (moment_now w) workflowRuns)
  = OK surviving ->
  let all := encountered (settled_listings w surviving) in
  let trace := fst (fan_out w configs taggedCommits workflowRuns) in
  recent_skips trace = [] /\
  age_checks trace = map (fun a => (id a, older_than_cutoff configs a)) all /\
  deletions trace
  = if devEnv w then [] else map id (filter (older_than_cutoff configs) all).
Proof.
  intros Hrule Hf. cbv zeta.
  destruct (fan_out_digests w configs taggedCommits workflowRuns surviving Hf)
    as (D1 & D2 & D3 & _).
  destruct (pipelines_scan w configs (settled_listings w surviving) 0)
    as (_ & _ & P1 & P2 & P3).
  rewrite D1, D2, D3, P1, P2, P3.
  rewrite (filter_artifacts_inactive configs 0 _ Hrule). cbn [fst snd].
  destruct (filter_lines_digest configs
              (encountered (settled_listings w surviving))) as [F1 F2].
  rewrite F1, F2. auto.
Qed.

(** C5, the claim as written fails: the supplied value [-1] is not a
    non-negative integer and configuration resolution accepts it; and the
    message of the error for a value that is not a number ends in a full
    stop. *)
Lemma skip_recent_negative_counterexample :
  snd (readInput (Sample.world "30 days" "" "-1") "skip-recent" false)
  = OK (Js.Str "-1") /\
  nonneg_integer (Js.Number (Js.Str "-1")) = false /\
  (exists configs,
      snd (getConfigs (Sample.world "30 days" "" "-1")) = OK configs /\
      skipRecent configs = Js.Num (-1)) /\
  (exists e,
      snd (getConfigs (Sample.world "30 days" "" "abc")) = Throw e /\
      Js.message e <> "skip-recent option must be type of number").
Proof.
  split; [reflexivity|]. split; [reflexivity|]. split.
  - eexists. split; reflexivity.
  - eexists. split; [reflexivity | discriminate].
Qed.

(** C5, amended: once everything read before it has resolved, a non-empty
    skip-recent input that does not read as a number makes configuration
    resolution fail with "skip-recent option must be type of number.";
    every input that reads as a number is accepted, negative and
    fractional ones included, and the configuration carries that number;
    an empty input resolves to zero and an undefined one to NaN, and
    either leaves the recent-count rule inactive. *)
Theorem skip_recent_resolution (w : World) (cutoff : instant) (v : Js.value) :
  ambient_resolves w cutoff ->
  snd (readInput w (inputKeys.SKIP_RECENT w) false) = OK v ->
  (Js.truthy v = true -> Js.isNaN (Js.Number v) = true ->
   snd (getConfigs w)
   = Throw (Js.mkError "Error" "skip-recent option must be type of number.")) /\
  (Js.isNaN (Js.Number v) = false ->
   exists configs,
     snd (getConfigs w) = OK configs /\ skipRecent configs = Js.Number v) /\
  (Js.truthy v = false ->
   exists configs,
     snd (getConfigs w) = OK configs /\
     skipRecent configs = match v with
                          | Js.Undefined => Js.NaN
                          | Js.Str _ => Js.Num 0
                          end /\
     forall counter, skipRecentArtifact configs counter = false).
Proof.
  intros Hamb Hv. split; [|split].
  - intros Ht Hn. exact (getConfigs_refuses w cutoff v Hamb Hv Ht Hn).
  - intros Hn.
    destruct (getConfigs_accepts w cutoff v Hamb Hv (or_intror Hn))
      as (configs & H1 & H2 & _).
    now exists configs.
  - intros Hf.
    destruct (getConfigs_accepts w cutoff v Hamb Hv (or_introl Hf))
      as (configs & H1 & H2 & _).
    exists configs. split; [exact H1|]. split.
    + rewrite H2. destruct v as [|s]; [reflexivity|].
      destruct s; [reflexivity | discriminate].
    + intro counter. unfold skipRecentArtifact.
      now rewrite H2, (falsy_input_inactive v Hf).
Qed.

Lemma skip_recent_resolution_witness :
  snd (getConfigs (Sample.world "30 days" "" "three"))
  = Throw (Js.mkError "Error" "skip-recent option must be type of number.") /\
  (exists configs,
      snd (getConfigs (Sample.world "30 days" "" "")) = OK configs /\
      skipRecent configs = Js.Num 0 /\
      forall counter, skipRecentArtifact configs counter = false).
Proof.
  assert (Hamb : forall s,
             ambient_resolves (Sample.world "30 days" "" s) (70 * Sample.day)).
  { intro s. split; [discriminate|]. split.
    - exists "30 days". split; reflexivity.
    - exists (Js.Str ""). reflexivity. }
  split.
  - apply (proj1 (skip_recent_resolution (Sample.world "30 days" "" "three")
                    (70 * Sample.day) (Js.Str "three") (Hamb _) eq_refl));
      reflexivity.
  - apply (proj2 (proj2 (skip_recent_resolution (Sample.world "30 days" "" "")
                           (70 * Sample.day) (Js.Str "") (Hamb _) eq_refl))).
    reflexivity.
Defined.

(** Two configurations that differ in the recent-skip count only, both
    with the rule inactive at the counter's value, run the same fan-out. *)
Lemma pipelines_inactive (w : World) (configs : Configs) (n : Js.number)
  (responses : list (Result (list Artifact))) (c : Z) :
  skipRecentArtifact configs c = false ->
  skipRecentArtifact (with_skipRecent configs n) c = false ->
  pipelines w configs c responses
  = pipelines w (with_skipRecent configs n) c responses.
Proof.
  intros H1 H2. induction responses as [|[l|e] rest IH];
    cbn [pipelines pipeline]; [reflexivity| |].
  - rewrite (filter_artifacts_inactive _ _ l H1),
      (filter_artifacts_inactive _ _ l H2), IH. reflexivity.
  - now rewrite IH.
Qed.

Lemma filter_runs_skipRecent (configs : Configs) (n : Js.number)
  (taggedCommits : option (list string)) (now : instant)
  (runs : list WorkflowRun) :
  filter_runs (with_skipRecent configs n) taggedCommits now runs
  = filter_runs configs taggedCommits now runs.
Proof.
  induction runs as [|r runs IH]; [reflexivity|].
  cbn [filter_runs]. now rewrite IH.
Qed.

Lemma fan_out_as_inactive (w : World) (configs : Configs)
  (taggedCommits : option (list string)) (workflowRuns : list WorkflowRun) :
  skipRecentArtifact configs 0 = false ->
  fan_out w configs taggedCommits workflowRuns
  = fan_out w (with_skipRecent configs (Js.Num 0)) taggedCommits workflowRuns.
Proof.
  intros Hrule. unfold fan_out. rewrite filter_runs_skipRecent.
  destruct (filter_runs configs taggedCommits (moment_now w) workflowRuns)
    as [evs [surviving|e]]; [|reflexivity].
  rewrite !bind_ok. cbn [fst snd].
  rewrite <- (pipelines_inactive w configs (Js.Num 0) _ 0 Hrule eq_refl).
  reflexivity.
Qed.

(** C10: once everything read before it has resolved, every skip-recent
    input that reads as a number is accepted, negative and fractional ones
    included, and the configuration carries that number; when the number is
    negative the recent-count rule excludes no artifact: the fan-out is the
    one of the same configuration with a count of zero, nothing is skipped
    and every artifact met is age-checked. *)
Theorem numeric_skip_recent_accepted (w : World) (cutoff : instant)
  (v : Js.value) (taggedCommits : option (list string))
  (workflowRuns : list WorkflowRun) :
  ambient_resolves w cutoff ->
  snd (readInput w (inputKeys.SKIP_RECENT w) false) = OK v ->
  Js.isNaN (Js.Number v) = false ->
  exists configs,
    snd (getConfigs w) = OK configs /\
    skipRecent configs = Js.Number v /\
    (Js.negative (Js.Number v) = true ->
     (forall counter, 0 <= counter ->
        skipRecentArtifact configs counter = false) /\
     fan_out w configs taggedCommits workflowRuns
     = fan_out w (with_skipRecent configs (Js.Num 0)) taggedCommits
         workflowRuns /\
     forall surviving,
       snd (filter_runs configs taggedCommits (moment_now w) workflowRuns)
       = OK surviving ->
       let all := encountered (settled_listings w surviving) in
       let trace := fst (fan_out w configs taggedCommits workflowRuns) in
       recent_skips trace = [] /\
       age_checks trace
       = map (fun a => (id a, older_than_cutoff configs a)) all /\
       deletions trace
       = if devEnv w then []
         else map id (filter (older_than_cutoff configs) all)).
Proof.
  intros Hamb Hv Hnum.
  destruct (getConfigs_accepts w cutoff v Hamb Hv (or_intror Hnum))
    as (configs & H1 & H2 & _).
  exists configs. split; [exact H1|]. split; [exact H2|].
  intros Hneg. rewrite <- H2 in Hneg.
  assert (Hrule : forall counter, 0 <= counter ->
                    skipRecentArtifact configs counter = false).
  { intros counter Hc. now apply negative_inactive. }
  split; [exact Hrule|]. split.
  - apply fan_out_as_inactive, Hrule. lia.
  - intros surviving Hf. apply fan_out_inactive; [apply Hrule; lia | exact Hf].
Qed.

Lemma numeric_skip_recent_accepted_witness :
  exists configs,
    snd (getConfigs (Sample.world "30 days" "" "-1.5")) = OK configs /\
    skipRecent configs = Js.Number (Js.Str "-1.5") /\
    recent_skips (fst (fan_out (Sample.world "30 days" "" "-1.5") configs None
                         Sample.runs_page1)) = [].
Proof.
  assert (Hamb : ambient_resolves (Sample.world "30 days" "" "-1.5")
                   (70 * Sample.day)).
  { split; [discriminate|]. split.
    - exists "30 days". split; reflexivity.
    - exists (Js.Str ""). reflexivity. }
  destruct (numeric_skip_recent_accepted (Sample.world "30 days" "" "-1.5")
              (70 * Sample.day) (Js.Str "-1.5") None Sample.runs_page1
              Hamb eq_refl eq_refl) as (configs & H1 & H2 & H3).
  exists configs. split; [exact H1|]. split; [exact H2|].
  destruct (H3 eq_refl) as (_ & _ & H4).
  injection H1 as <-.
  exact (proj1 (H4 Sample.runs_page1 eq_refl)).
Defined.

(** ** The age input and the time library *)

(** Arguments the library cannot read leave the moment as it is. *)
Lemma subtract_unreadable (m : instant) (val : string) (period : option string) :
  Moment.unreadable val period = true -> Moment.subtract m val period = OK m.
Proof.
  unfold Moment.unreadable, Moment.subtract.
  destruct (Moment.arguments val period) as [amount key].
  destruct amount as [|q|neg]; try reflexivity.
  cbn [Js.isNaN orb]. destruct key as [k|]; [|discriminate].
  destruct (Moment.normalizeUnits k); [discriminate | reflexivity].
Qed.

(** The library never raises. *)
Lemma subtract_returns (m : instant) (val : string) (period : option string) :
  exists c, Moment.subtract m val period = OK c.
Proof.
  unfold Moment.subtract.
  destruct (Moment.arguments val period) as [amount key]. eexists. reflexivity.
Qed.

(** An invocation that got its configuration and has a page of runs to ask
    for sends a request. *)
Lemma run_sends_a_request (w : World) (configs : Configs) :
  snd (getConfigs w) = OK configs ->
  workflowRunPages w <> [] ->
  exists ev, In ev (fst (run w)) /\ is_request ev = true.
Proof.
  intros Hok Hpages. rewrite run_unfold.
  destruct (getConfigs w) as [evs0 r]; cbn [snd] in Hok; subst r.
  destruct (tag_stage w configs) as [evs1 [taggedCommits|e]] eqn:Htag.
  - unfold list_runs.
    destruct (workflowRunPages w) as [|page pages]; [congruence|].
    cbn [paginate_runs]. unfold emit. rewrite bind_ok.
    exists (ReqListRuns (perPage configs + 200) (branchToConsider configs) 0).
    split; [|reflexivity].
    destruct (lift page) as [evs r].
    destruct (bind (evs, r) _) as [evs2 [workflowRuns|e]]; cbn [fst];
      apply in_or_app; right; apply in_or_app; right; now left.
  - exists (ReqListTags (perPage configs)). split; [|reflexivity].
    cbn [fst]. apply in_or_app. right.
    revert Htag. unfold tag_stage, getTaggedCommits, emit, lift.
    destruct (option_truthy (skipTags configs)); [|discriminate].
    rewrite bind_ok. destruct (listTags w); cbn [bind ret fst snd app];
      intros [= <- _]; now left.
Qed.

(** C6, the claim as written fails: with moment as the time library the
    age input "30 parsecs", whose units the library does not know, does not
    make configuration resolution fail: the cutoff is the current instant,
    the invocation goes on to its requests, asks to delete every artifact
    it meets and exits with 0. *)
Lemma unparsable_age_counterexample :
  Moment.unreadable "30" (Some "parsecs") = true /\
  getConfigs (Sample.world "30 parsecs" "" "")
  = ([LogMaxAge "30" (Some "parsecs") Sample.now],
     OK (Sample.configs_at Sample.now)) /\
  deletions (fst (run (Sample.world "30 parsecs" "" ""))) = [1; 2; 3; 4; 5; 6] /\
  exitCode (main (Sample.world "30 parsecs" "" "")) = 0.
Proof. repeat split. Qed.

(** C6, amended: configuration resolution does not validate the age
    input and, with moment as the time library, never fails on its tokens:
    for every age input that is a string it succeeds once the other inputs
    resolve; when the tokens cannot be read as a duration (the amount is
    not a number, or the units are no name the library knows) the cutoff
    is the current instant, so that every artifact created before now
    passes the age test, and the invocation goes on to its requests. *)
Theorem unreadable_age_is_accepted (w : World) (ageInput : string)
  (v tv : Js.value) :
  uses_moment w ->
  process_env w "GITHUB_REPOSITORY" <> None ->
  snd (readInput w (inputKeys.AGE w) true) = OK (Js.Str ageInput) ->
  snd (readInput w (inputKeys.SKIP_RECENT w) false) = OK v ->
  Js.truthy v = false \/ Js.isNaN (Js.Number v) = false ->
  snd (readInput w (inputKeys.SKIP_TAGS w) false) = OK tv ->
  exists configs,
    snd (getConfigs w) = OK configs /\
    (Moment.unreadable (nth 0 (Js.split " " ageInput) "")
       (nth_error (Js.split " " ageInput) 1) = true ->
     maxAge configs = moment_now w /\
     forall a, older_than_cutoff configs a = (created_at a <? moment_now w)) /\
    (workflowRunPages w <> [] ->
     exists ev, In ev (fst (run w)) /\ is_request ev = true).
Proof.
  intros Hlib Hrepo Hage Hv Hfine Htv.
  destruct (subtract_returns (moment_now w) (nth 0 (Js.split " " ageInput) "")
              (nth_error (Js.split " " ageInput) 1)) as [c Hc].
  destruct (getConfigs_accepts w c v) as (configs & Hok & _ & Hmax).
  - split; [exact Hrepo|]. split.
    + exists ageInput. split; [exact Hage | now rewrite Hlib].
    + now exists tv.
  - exact Hv.
  - exact Hfine.
  - exists configs. split; [exact Hok|]. split.
    + intros Hun. rewrite (subtract_unreadable _ _ _ Hun) in Hc.
      injection Hc as <-. split; [exact Hmax|].
      intro a. unfold older_than_cutoff, isBefore. now rewrite Hmax.
    + intros Hpages. exact (run_sends_a_request w configs Hok Hpages).
Qed.

Lemma unreadable_age_is_accepted_witness :
  exists configs,
    snd (getConfigs (Sample.world "soon" "" "")) = OK configs /\
    maxAge configs = Sample.now.
Proof.
  destruct (unreadable_age_is_accepted (Sample.world "soon" "" "") "soon"
              (Js.Str "") (Js.Str ""))
    as (configs & Hok & Hnow & _).
  - intros m age units. reflexivity.
  - discriminate.
  - reflexivity.
  - reflexivity.
  - left. reflexivity.
  - reflexivity.
  - exists configs. split; [exact Hok|]. exact (proj1 (Hnow eq_refl)).
Defined.

(** ** Deletions *)

Lemma pipelines_deleteArtifact (w : World) (answer : Z -> Result unit)
  (configs : Configs) (responses : list (Result (list Artifact))) (c : Z) :
  pipelines (with_deleteArtifact w answer) configs c responses
  = pipelines w configs c responses.
Proof.
  revert c. induction responses as [|[l|e] rest IH]; intro c;
    cbn [pipelines pipeline]; [reflexivity| |].
  - destruct (filter_artifacts configs c l) as [[kept c1] lines].
    now rewrite IH.
  - now rewrite IH.
Qed.

Lemma delete_promise_errors (w : World) (l : list Artifact) :
  delete_errors (fst (all_settled (map (delete_promise w) l)))
  = reported_failures (deleteArtifact w) (if devEnv w then [] else map id l).
Proof.
  rewrite all_settled_events. unfold delete_promise.
  induction l as [|a l IH]; cbn [map flat_map].
  - destruct (devEnv w); reflexivity.
  - rewrite delete_errors_app, IH.
    destruct (devEnv w); [reflexivity|].
    cbn [reported_failures flat_map].
    destruct (deleteArtifact w (id a)); reflexivity.
Qed.

(** What a fan-out asks to delete, and what it reports about it. *)
Lemma fan_out_deletions (w : World) (configs : Configs)
  (taggedCommits : option (list string)) (workflowRuns : list WorkflowRun) :
  let trace := fst (fan_out w configs taggedCommits workflowRuns) in
  (forall answer,
      deletions (fst (fan_out (with_deleteArtifact w answer) configs
                        taggedCommits workflowRuns)) = deletions trace /\
      snd (fan_out (with_deleteArtifact w answer) configs
             taggedCommits workflowRuns)
      = snd (fan_out w configs taggedCommits workflowRuns)) /\
  delete_errors trace = reported_failures (deleteArtifact w) (deletions trace).
Proof.
  cbv zeta.
  destruct (filter_runs configs taggedCommits (moment_now w) workflowRuns)
    as [evs [surviving|e]] eqn:Hf.
  - assert (Hs : snd (filter_runs configs taggedCommits (moment_now w)
                        workflowRuns) = OK surviving) by now rewrite Hf.
    pose proof (run_filter_events configs taggedCommits (moment_now w)
                  workflowRuns) as S1.
    pose proof (listing_events configs surviving) as S2.
    pose proof (pipeline_events w configs (settled_listings w surviving) 0)
      as S3.
    destruct (pipelines_scan w configs (settled_listings w surviving) 0)
      as (P1 & _ & _ & _ & P5).
    split.
    + intro answer. split.
      * rewrite (fan_out_trace (with_deleteArtifact w answer) _ _ _ _ Hs),
          (fan_out_trace w _ _ _ _ Hs).
        change (settled_listings (with_deleteArtifact w answer) surviving)
          with (settled_listings w surviving).
        rewrite pipelines_deleteArtifact, !deletions_app.
        f_equal. f_equal. f_equal.
        unfold deletions at 1 2.
        rewrite (flat_map_quiet _ _ _ (delete_reports _ _)),
          (flat_map_quiet _ _ _ (delete_reports _ _));
          try no_contribution.
        reflexivity.
      * rewrite (fan_out_result (with_deleteArtifact w answer) _ _ _ _ Hs),
          (fan_out_result w _ _ _ _ Hs). reflexivity.
    + rewrite (fan_out_trace w _ _ _ _ Hs).
      rewrite !delete_errors_app, !deletions_app, delete_promise_errors, P1.
      unfold delete_errors at 1 2 3.
      rewrite (flat_map_quiet _ _ _ S1), (flat_map_quiet _ _ _ S2),
        (flat_map_quiet _ _ _ S3); try no_contribution.
      unfold deletions at 1 2 4.
      rewrite (flat_map_quiet _ _ _ S1), (flat_map_quiet _ _ _ S2),
        (flat_map_quiet _ _ _ (delete_reports _ _)); try no_contribution.
      cbn [app]. rewrite app_nil_r, P5. reflexivity.
  - assert (Hs : snd (filter_runs configs taggedCommits (moment_now w)
                        workflowRuns) = Throw e) by now rewrite Hf.
    pose proof (run_filter_events configs taggedCommits (moment_now w)
                  workflowRuns) as S1.
    unfold fan_out.
    change (moment_now (with_deleteArtifact w _)) with (moment_now w).
    split; [intro answer; split|];
      rewrite !(bind_snd_throw _ _ _ Hs); cbn [fst snd]; try reflexivity.
    unfold delete_errors, deletions at 1.
    rewrite !(flat_map_quiet _ _ _ S1); try no_contribution. reflexivity.
Qed.

(** ** The whole invocation *)

Lemma early_is_log_or_request (evs : list Event) :
  Forall early_event evs -> Forall log_or_request evs.
Proof.
  apply Forall_impl. intros [] H; solve [destruct H | left; reflexivity
                                        | right; reflexivity].
Qed.

Lemma fan_out_events (w : World) (configs : Configs)
  (taggedCommits : option (list string)) (workflowRuns : list WorkflowRun) :
  Forall log_or_request (fst (fan_out w configs taggedCommits workflowRuns)).
Proof.
  pose proof (run_filter_events configs taggedCommits (moment_now w)
                workflowRuns) as S1.
  assert (L1 : Forall log_or_request
                 (fst (filter_runs configs taggedCommits (moment_now w)
                         workflowRuns))).
  { revert S1. apply Forall_impl.
    intros [] H; solve [destruct H | left; reflexivity]. }
  destruct (snd (filter_runs configs taggedCommits (moment_now w) workflowRuns))
    as [surviving|e] eqn:Hs.
  - rewrite (fan_out_trace w _ _ _ _ Hs). rewrite !Forall_app.
    split; [exact L1|]. split; [|split].
    + generalize (listing_events configs surviving). apply Forall_impl.
      intros [] H; solve [destruct H | left; reflexivity | right; reflexivity].
    + generalize (pipeline_events w configs (settled_listings w surviving) 0).
      apply Forall_impl.
      intros [] H; solve [destruct H | left; reflexivity | right; reflexivity].
    + generalize (delete_reports w (started_deletions
        (fst (pipelines w configs 0 (settled_listings w surviving))))).
      apply Forall_impl.
      intros [] H; solve [destruct H | left; reflexivity].
  - unfold fan_out. rewrite (bind_snd_throw _ _ _ Hs). exact L1.
Qed.

Lemma run_events (w : World) : Forall log_or_request (fst (run w)).
Proof.
  rewrite run_unfold.
  pose proof (early_is_log_or_request _ (getConfigs_events w)) as E0.
  destruct (getConfigs w) as [evs0 [configs|e]]; [|exact E0].
  pose proof (early_is_log_or_request _ (tag_stage_events w configs)) as E1.
  destruct (tag_stage w configs) as [evs1 [taggedCommits|e]];
    [|apply Forall_app; auto].
  pose proof (early_is_log_or_request _
    (paginate_runs_events (perPage configs + 200) (branchToConsider configs)
       (moment_now w) (workflowRunPages w) 0)) as E2.
  fold (list_runs w configs) in E2.
  destruct (list_runs w configs) as [evs2 [workflowRuns|e]];
    cbn [fst snd] in *; rewrite !Forall_app; repeat split; auto.
  apply fan_out_events.
Qed.

Lemma run_deletions (w : World) :
  (forall answer,
      deletions (fst (run (with_deleteArtifact w answer)))
      = deletions (fst (run w)) /\
      snd (run (with_deleteArtifact w answer)) = snd (run w)) /\
  delete_errors (fst (run w))
  = reported_failures (deleteArtifact w) (deletions (fst (run w))).
Proof.
  assert (Hrun : forall answer,
    run (with_deleteArtifact w answer) =
    match getConfigs w with
    | (evs0, Throw e) => (evs0, Throw e)
    | (evs0, OK configs) =>
        match tag_stage w configs with
        | (evs1, Throw e) => (evs0 ++ evs1, Throw e)
        | (evs1, OK taggedCommits) =>
            match list_runs w configs with
            | (evs2, Throw e) => (evs0 ++ evs1 ++ evs2, Throw e)
            | (evs2, OK workflowRuns) =>
                (evs0 ++ evs1 ++ evs2
                 ++ fst (fan_out (with_deleteArtifact w answer) configs
                           taggedCommits workflowRuns),
                 snd (fan_out (with_deleteArtifact w answer) configs
                        taggedCommits workflowRuns))
            end
        end
    end).
  { intro answer. rewrite run_unfold. reflexivity. }
  pose proof (early_stages_quiet _ (getConfigs_events w)) as (Q0 & R0 & _).
  split; [intro answer; rewrite Hrun|]; rewrite run_unfold;
    destruct (getConfigs w) as [evs0 [configs|e]];
    cbn [fst snd] in *; try (split; reflexivity);
    try (now rewrite Q0, R0).
  - pose proof (early_stages_quiet _ (tag_stage_events w configs))
      as (Q1 & R1 & _).
    destruct (tag_stage w configs) as [evs1 [taggedCommits|e]];
      [|split; reflexivity].
    destruct (list_runs w configs) as [evs2 [workflowRuns|e]];
      [|split; reflexivity].
    destruct (fan_out_deletions w configs taggedCommits workflowRuns)
      as [Hiso _]. destruct (Hiso answer) as [Hd Hr].
    cbn [fst snd]. rewrite !deletions_app, Hd, Hr. split; reflexivity.
  - pose proof (early_stages_quiet _ (tag_stage_events w configs))
      as (Q1 & R1 & _).
    destruct (tag_stage w configs) as [evs1 [taggedCommits|e]];
      cbn [fst snd] in *;
      [|now rewrite delete_errors_app, deletions_app, Q0, R0, Q1, R1].
    pose proof (early_stages_quiet _
      (paginate_runs_events (perPage configs + 200) (branchToConsider configs)
         (moment_now w) (workflowRunPages w) 0)) as (Q2 & R2 & _).
    fold (list_runs w configs) in Q2, R2.
    destruct (list_runs w configs) as [evs2 [workflowRuns|e]];
      cbn [fst snd] in *; rewrite !delete_errors_app, !deletions_app,
        Q0, R0, Q1, R1, Q2, R2; [|reflexivity].
    destruct (fan_out_deletions w configs taggedCommits workflowRuns)
      as [_ Herr]. exact Herr.
Qed.

Lemma exitCode_main (w : World) :
  exitCode (main w) = match snd (run w) with OK _ => 0 | Throw _ => 1 end.
Proof. unfold main. destruct (run w) as [evs [u|e]]; reflexivity. Qed.

(** C7: the promise of every deletion resolves, its failure caught and
    logged; so whatever the platform answers to the deletion requests, the
    invocation asks for the same deletions and ends the same way (same
    result, same exit code), and every requested deletion that fails is
    reported in the log, once, and nothing else is. *)
Theorem deletion_failures_are_isolated (w : World) (answer : Z -> Result unit) :
  let failing := with_deleteArtifact w answer in
  snd (run failing) = snd (run w) /\
  exitCode (main failing) = exitCode (main w) /\
  deletions (fst (run failing)) = deletions (fst (run w)) /\
  delete_errors (fst (run failing))
  = reported_failures answer (deletions (fst (run failing))) /\
  forall a, snd (delete_promise failing a) = OK tt.
Proof.
  cbv zeta. destruct (run_deletions w) as [Hiso _].
  destruct (Hiso answer) as [Hd Hr].
  split; [exact Hr|]. split; [now rewrite !exitCode_main, Hr|].
  split; [exact Hd|]. split.
  - exact (proj2 (run_deletions (with_deleteArtifact w answer))).
  - intro a. unfold delete_promise. cbn [devEnv deleteArtifact with_deleteArtifact].
    destruct (devEnv w); [reflexivity|]. destruct (answer (id a)); reflexivity.
Qed.

Lemma main_events (w : World) :
  events (main w) =
  fst (run w) ++ match snd (run w) with
                 | OK _ => []
                 | Throw e => [SetFailed (Js.toString e)]
                 end.
Proof.
  unfold main. destruct (run w) as [evs [u|e]]; cbn [events fst snd];
    [now rewrite app_nil_r | reflexivity].
Qed.

Lemma run_reports_no_failure (w : World) : failures (fst (run w)) = [].
Proof.
  apply (flat_map_quiet _ _ _ (run_events w)).
  intros [] [H|H]; solve [reflexivity | discriminate H].
Qed.

(** C8: an error that reaches the final [catch] (from configuration
    resolution, from the tag listing when skip-tags is set, from a page of
    runs that was requested, from the listing of a run that passed the run
    filter) makes the process report its string form and exit with 1;
    otherwise the process exits with 0, reports no failure, and has only
    logged and sent requests. *)
Theorem uncaught_failure_sets_exit_code (w : World) :
  (forall e, snd (run w) = Throw e ->
     exitCode (main w) = 1 /\
     events (main w) = fst (run w) ++ [SetFailed (Js.toString e)] /\
     failures (events (main w)) = [Js.toString e]) /\
  (snd (run w) = OK tt ->
     exitCode (main w) = 0 /\
     failures (events (main w)) = [] /\
     Forall log_or_request (events (main w))) /\
  (forall e, snd (getConfigs w) = Throw e -> snd (run w) = Throw e) /\
  (forall configs e,
     snd (getConfigs w) = OK configs ->
     option_truthy (skipTags configs) = true ->
     listTags w = Throw e ->
     snd (run w) = Throw e) /\
  (forall configs taggedCommits before after e,
     snd (getConfigs w) = OK configs ->
     snd (tag_stage w configs) = OK taggedCommits ->
     workflowRunPages w = map OK before ++ Throw e :: after ->
     Forall (fun p => has_too_old (moment_now w) p = false) before ->
     snd (run w) = Throw e) /\
  (forall configs taggedCommits workflowRuns,
     snd (getConfigs w) = OK configs ->
     snd (tag_stage w configs) = OK taggedCommits ->
     snd (list_runs w configs) = OK workflowRuns ->
     let surviving :=
       filter (fun r => negb (run_excluded configs (tagged_set taggedCommits)
                                (moment_now w) r)) workflowRuns in
     snd (run w) = match first_rejection (settled_listings w surviving) with
                   | Some e => Throw e
                   | None => OK tt
                   end).
Proof.
  split; [|split; [|split; [|split; [|split]]]].
  - intros e He. rewrite exitCode_main, main_events, He.
    split; [reflexivity|]. split; [reflexivity|].
    unfold failures. rewrite flat_map_app. fold (failures (fst (run w))).
    now rewrite run_reports_no_failure.
  - intros Hok. rewrite exitCode_main, main_events, Hok, app_nil_r.
    split; [reflexivity|]. split; [apply run_reports_no_failure|].
    apply run_events.
  - intros e He. rewrite run_unfold.
    destruct (getConfigs w) as [evs0 r]; cbn [snd] in He; now subst r.
  - intros configs e Hc Hskip Htags. rewrite run_unfold.
    destruct (getConfigs w) as [evs0 r]; cbn [snd] in Hc; subst r.
    unfold tag_stage, getTaggedCommits, emit, lift.
    rewrite Hskip, bind_ok, Htags. reflexivity.
  - intros configs taggedCommits before after e Hc Ht Hpages Hclean.
    rewrite run_unfold.
    destruct (getConfigs w) as [evs0 r]; cbn [snd] in Hc; subst r.
    destruct (tag_stage w configs) as [evs1 r]; cbn [snd] in Ht; subst r.
    unfold list_runs. rewrite Hpages.
    rewrite (paginate_runs_clean _ _ _ _ _ _ Hclean). cbv zeta.
    cbn [paginate_runs]. unfold emit, lift. rewrite bind_ok. reflexivity.
  - intros configs taggedCommits workflowRuns Hc Ht Hl. cbv zeta.
    assert (Htags : option_truthy (skipTags configs) = true ->
                    taggedCommits <> None).
    { intros Hskip. pose proof (tag_stage_result _ _ _ Ht) as H.
      rewrite Hskip in H. destruct H as (tags & _ & ->). discriminate. }
    rewrite run_unfold.
    destruct (getConfigs w) as [evs0 r]; cbn [snd] in Hc; subst r.
    destruct (tag_stage w configs) as [evs1 r]; cbn [snd] in Ht; subst r.
    destruct (list_runs w configs) as [evs2 r]; cbn [snd] in Hl; subst r.
    cbn [snd]. apply fan_out_result.
    now rewrite (filter_runs_spec _ _ _ _ Htags).
Qed.

Lemma uncaught_failure_sets_exit_code_witness :
  (exitCode (main Sample.broken_listing_world) = 1 /\
   events (main Sample.broken_listing_world)
   = fst (run Sample.broken_listing_world)
     ++ [SetFailed "HttpError: Server Error"] /\
   failures (events (main Sample.broken_listing_world))
   = ["HttpError: Server Error"]) /\
  (exitCode (main (Sample.world "30 days" "" "1")) = 0 /\
   failures (events (main (Sample.world "30 days" "" "1"))) = [] /\
   Forall log_or_request (events (main (Sample.world "30 days" "" "1")))) /\
  snd (run (Sample.world "30 days" "" "x")) = Throw skipRecentError.
Proof.
  split; [|split].
  - apply (proj1 (uncaught_failure_sets_exit_code Sample.broken_listing_world)
             Sample.http_error).
    reflexivity.
  - apply (proj1 (proj2 (uncaught_failure_sets_exit_code
                           (Sample.world "30 days" "" "1")))).
    reflexivity.
  - apply (proj1 (proj2 (proj2 (uncaught_failure_sets_exit_code
                                  (Sample.world "30 days" "" "x"))))
             skipRecentError).
    reflexivity.
Defined.

(** * Further properties *)

(** ** What configuration resolution needs and what it builds *)

Lemma readInput_result (w : World) (key : string) (isRequired : bool) :
  readInput w key isRequired = ([], snd (readInput w key isRequired)).
Proof.
  rewrite <- (readInput_silent w key isRequired) at 1.
  now destruct (readInput w key isRequired).
Qed.

(** The inputs [getConfigs] read when it returned a configuration. *)
Lemma getConfigs_inversion (w : World) (configs : Configs) :
  snd (getConfigs w) = OK configs ->
  exists i, reads w i /\ configs = configs_of w i.
Proof.
  unfold getConfigs.
  destruct (process_env w "GITHUB_REPOSITORY") as [repository|] eqn:Hrepo;
    cbn [split_value]; [|discriminate].
  rewrite bind_ret, (readInput_result w (inputKeys.AGE w)).
  destruct (snd (readInput w (inputKeys.AGE w) true)) as [[|age]|e] eqn:Hage;
    [discriminate| |discriminate].
  rewrite bind_ok. cbn [split_value fst snd]. rewrite bind_ret.
  unfold lift at 1.
  destruct (moment_subtract w (moment_now w) (nth 0 (Js.split " " age) "")
              (nth_error (Js.split " " age) 1)) as [cutoff|e] eqn:Hsub;
    [|discriminate].
  rewrite bind_ok. cbn [fst snd]. unfold emit. rewrite bind_ok. cbn [fst snd].
  rewrite (readInput_result w (inputKeys.SKIP_RECENT w)).
  destruct (snd (readInput w (inputKeys.SKIP_RECENT w) false)) as [v|e] eqn:Hv;
    [|discriminate].
  rewrite bind_ok. cbn [fst snd].
  destruct (Js.truthy v) eqn:Htruthy;
    [destruct (Js.isNaN (Js.Number v)) eqn:Hnan; [discriminate|]|];
    rewrite bind_ret; unfold lift; rewrite bind_ok; cbn [fst snd];
    rewrite (readInput_result w (inputKeys.SKIP_TAGS w));
    (destruct (snd (readInput w (inputKeys.SKIP_TAGS w) false)) as [tv|e] eqn:Htv;
     [|discriminate]);
    rewrite bind_ok; cbn [fst snd ret app]; intros [= <-];
    exists (mkInputs repository age cutoff v tv);
    (split; [|reflexivity]); unfold reads; cbn [in_repository in_age in_cutoff
      in_skipRecent in_skipTags]; repeat split; auto.
Qed.

(** With those inputs in place it returns that configuration, after one
    log line. *)
Lemma getConfigs_of_inputs (w : World) (i : Inputs) :
  reads w i ->
  getConfigs w =
  ([LogMaxAge (nth 0 (Js.split " " (in_age i)) "")
      (nth_error (Js.split " " (in_age i)) 1) (in_cutoff i)],
   OK (configs_of w i)).
Proof.
  intros (Hrepo & Hage & Hsub & Hv & Hfine & Htv).
  unfold getConfigs. rewrite Hrepo. cbn [split_value].
  rewrite bind_ret, (readInput_result w (inputKeys.AGE w)), Hage, bind_ok.
  cbn [split_value fst snd]. rewrite bind_ret.
  unfold lift at 1. rewrite Hsub, bind_ok. cbn [fst snd].
  unfold emit. rewrite bind_ok. cbn [fst snd].
  rewrite (readInput_result w (inputKeys.SKIP_RECENT w)), Hv, bind_ok.
  cbn [fst snd].
  assert (Hcheck :
    (if Js.truthy (in_skipRecent i)
     then if Js.isNaN (Js.Number (in_skipRecent i))
          then throw skipRecentError else ret tt
     else ret tt) = ret tt).
  { destruct Hfine as [-> | ->]; [reflexivity|].
    destruct (Js.truthy (in_skipRecent i)); reflexivity. }
  rewrite Hcheck, bind_ret. unfold lift. rewrite bind_ok. cbn [fst snd].
  rewrite (readInput_result w (inputKeys.SKIP_TAGS w)), Htv, bind_ok.
  reflexivity.
Qed.

(** X1: configuration resolution returns a configuration exactly when the
    repository identity is set, the age input is a string whose tokens the
    time library accepts, the skip-recent input is falsy or reads as a
    number, and the two optional inputs can be read; the configuration is
    then built from these readings, with page size 100, branch "master"
    and retries enabled. *)
Theorem getConfigs_success_conditions (w : World) (configs : Configs) :
  snd (getConfigs w) = OK configs <->
  exists i, reads w i /\ configs = configs_of w i.
Proof.
  split.
  - apply getConfigs_inversion.
  - intros (i & Hreads & ->). now rewrite (getConfigs_of_inputs w i Hreads).
Qed.

Lemma getConfigs_success_conditions_witness :
  snd (getConfigs (Sample.world "30 days" "true" "2")) =
  OK {| owner := Some "octo"; repo := Some "repo"; perPage := 100;
        maxAge := 70 * Sample.day; skipTags := Some true;
        skipRecent := Js.Num 2; retriesEnabled := true;
        branchToConsider := "master" |}.
Proof.
  apply (proj2 (getConfigs_success_conditions
                  (Sample.world "30 days" "true" "2") _)).
  exists (mkInputs "octo/repo" "30 days" (70 * Sample.day)
            (Js.Str "2") (Js.Str "true")).
  split; [|reflexivity].
  unfold reads. repeat split. right. reflexivity.
Defined.

(** X2: a configuration that was resolved carries NaN as its recent-skip
    count only in development mode with the variable unset; in production
    the count is never NaN. *)
Theorem skipRecent_nan_only_when_unset (w : World) (configs : Configs) :
  snd (getConfigs w) = OK configs ->
  Js.isNaN (skipRecent configs) = true ->
  devEnv w = true /\ process_env w "SKIP_RECENT" = None.
Proof.
  intros Hok Hnan.
  destruct (getConfigs_inversion w configs Hok)
    as (i & (_ & _ & _ & Hv & Hfine & _) & ->).
  cbn [skipRecent configs_of] in Hnan.
  destruct Hfine as [Hfalsy | Hnum]; [|congruence].
  revert Hv. unfold readInput, inputKeys.SKIP_RECENT, lift.
  destruct (devEnv w).
  - destruct (process_env w "SKIP_RECENT") as [s|]; [|auto].
    cbn [ret snd]. intros [= Heq]. rewrite <- Heq in Hnan, Hfalsy.
    destruct s; [discriminate Hnan | discriminate Hfalsy].
  - destruct (core_getInput w "skip-recent" false) as [s|e];
      cbn [bind ret snd]; [|discriminate].
    intros [= Heq]. rewrite <- Heq in Hnan, Hfalsy.
    destruct s; [discriminate Hnan | discriminate Hfalsy].
Qed.

Lemma skipRecent_nan_only_when_unset_witness :
  devEnv (MoreSamples.dev_world (Some "30 days")) = true /\
  process_env (MoreSamples.dev_world (Some "30 days")) "SKIP_RECENT" = None.
Proof.
  apply (skipRecent_nan_only_when_unset
           (MoreSamples.dev_world (Some "30 days"))
           (configs_of (MoreSamples.dev_world (Some "30 days"))
              (mkInputs "octo/repo" "30 days" (70 * Sample.day)
                 Js.Undefined Js.Undefined)));
    reflexivity.
Defined.

(** ** The repository identity *)

Lemma split_lacks (sep : ascii) (s : string) :
  lacks sep s = true -> Js.split sep s = [s].
Proof.
  induction s as [|c s IH]; [reflexivity|].
  cbn [lacks Js.split]. intros H. apply andb_true_iff in H as [Hc Hs].
  apply negb_true_iff in Hc. now rewrite Hc, (IH Hs).
Qed.

Lemma split_at_separator (sep : ascii) (a b : string) :
  lacks sep a = true ->
  Js.split sep (String.append a (String sep b)) = a :: Js.split sep b.
Proof.
  induction a as [|c a IH]; cbn [lacks String.append Js.split].
  - now rewrite Ascii.eqb_refl.
  - intros H. apply andb_true_iff in H as [Hc Ha].
    apply negb_true_iff in Hc. now rewrite Hc, (IH Ha).
Qed.

(** X3: when configuration resolution succeeds on the identity
    [owner/name], neither part holding a slash, the configuration carries
    that owner and that name; on an identity without a slash it still
    succeeds, with the whole string as owner and no repository name. *)
Theorem repository_identity_split (w : World) (configs : Configs)
  (identity : string) :
  snd (getConfigs w) = OK configs ->
  process_env w "GITHUB_REPOSITORY" = Some identity ->
  (forall a b, identity = String.append a (String "/" b) ->
     lacks "/" a = true -> lacks "/" b = true ->
     owner configs = Some a /\ repo configs = Some b) /\
  (lacks "/" identity = true ->
     owner configs = Some identity /\ repo configs = None).
Proof.
  intros Hok Hid.
  destruct (getConfigs_inversion w configs Hok)
    as (i & (Hrepo & _) & ->).
  rewrite Hid in Hrepo. cbn [owner repo configs_of].
  injection Hrepo as <-. split.
  - intros a b -> Ha Hb.
    rewrite (split_at_separator "/" a b Ha), (split_lacks "/" b Hb).
    split; reflexivity.
  - intros Hl. rewrite (split_lacks "/" identity Hl). split; reflexivity.
Qed.

Lemma repository_identity_split_witness :
  (owner (configs_of (MoreSamples.world_of "octo/repo")
            (mkInputs "octo/repo" "30 days" (70 * Sample.day)
               (Js.Str "") (Js.Str ""))) = Some "octo" /\
   repo (configs_of (MoreSamples.world_of "octo/repo")
           (mkInputs "octo/repo" "30 days" (70 * Sample.day)
              (Js.Str "") (Js.Str ""))) = Some "repo") /\
  (owner (configs_of (MoreSamples.world_of "octo")
            (mkInputs "octo" "30 days" (70 * Sample.day)
               (Js.Str "") (Js.Str ""))) = Some "octo" /\
   repo (configs_of (MoreSamples.world_of "octo")
           (mkInputs "octo" "30 days" (70 * Sample.day)
              (Js.Str "") (Js.Str ""))) = None).
Proof.
  split.
  - apply (proj1 (repository_identity_split
                    (MoreSamples.world_of "octo/repo") _ "octo/repo"
                    eq_refl eq_refl) "octo" "repo"); reflexivity.
  - apply (proj2 (repository_identity_split
                    (MoreSamples.world_of "octo") _ "octo"
                    eq_refl eq_refl)); reflexivity.
Defined.

(** X4: when the repository identity is unset, or the age input is
    undefined (development mode, variable unset), the invocation ends
    with a TypeError; when reading the age input raises (the toolkit, on a
    required input), it ends with that error.  In each case nothing was
    logged or requested before, and the process exits with 1. *)
Theorem missing_inputs_fail_first (w : World) :
  (process_env w "GITHUB_REPOSITORY" = None ->
   run w = ([], Throw TypeError_split)) /\
  (process_env w "GITHUB_REPOSITORY" <> None ->
   snd (readInput w (inputKeys.AGE w) true) = OK Js.Undefined ->
   run w = ([], Throw TypeError_split)) /\
  (forall e,
   process_env w "GITHUB_REPOSITORY" <> None ->
   snd (readInput w (inputKeys.AGE w) true) = Throw e ->
   run w = ([], Throw e)) /\
  (forall e, run w = ([], Throw e) ->
   main w = {| events := [SetFailed (Js.toString e)]; exitCode := 1 |}).
Proof.
  split; [|split; [|split]].
  - intros Hrepo. rewrite run_unfold. unfold getConfigs. now rewrite Hrepo.
  - intros Hrepo Hage. rewrite run_unfold. unfold getConfigs.
    destruct (process_env w "GITHUB_REPOSITORY"); [|congruence].
    cbn [split_value].
    now rewrite bind_ret, (readInput_result w (inputKeys.AGE w)), Hage.
  - intros e Hrepo Hage. rewrite run_unfold. unfold getConfigs.
    destruct (process_env w "GITHUB_REPOSITORY"); [|congruence].
    cbn [split_value].
    now rewrite bind_ret, (readInput_result w (inputKeys.AGE w)), Hage.
  - intros e Hrun. unfold main. now rewrite Hrun.
Qed.

Lemma missing_inputs_fail_first_witness :
  run (MoreSamples.dev_world None) = ([], Throw TypeError_split) /\
  main (MoreSamples.dev_world None)
  = {| events := [SetFailed
         "TypeError: Cannot read property 'split' of undefined"];
       exitCode := 1 |}.
Proof.
  assert (Hrun : run (MoreSamples.dev_world None) = ([], Throw TypeError_split)).
  { apply (proj1 (proj2 (missing_inputs_fail_first
                           (MoreSamples.dev_world None))));
      [discriminate | reflexivity]. }
  split; [exact Hrun|].
  exact (proj2 (proj2 (proj2 (missing_inputs_fail_first
                                (MoreSamples.dev_world None))))
           TypeError_split Hrun).
Defined.

(** ** The development mode *)

Lemma prevented_app (l1 l2 : list Event) :
  prevented (l1 ++ l2) = prevented l1 ++ prevented l2.
Proof. apply flat_map_app. Qed.

Lemma filter_artifacts_prevented (configs : Configs) (l : list Artifact) (c : Z) :
  prevented (snd (filter_artifacts configs c l)) = [].
Proof.
  revert c. induction l as [|a l IH]; intro c; simpl; [reflexivity|].
  unfold artifact_filter.
  destruct (skipRecentArtifact configs c);
    [specialize (IH (c + 1)) | specialize (IH c)];
    destruct (filter_artifacts configs _ l) as [[k c'] ls]; simpl in *;
    exact IH.
Qed.

Lemma remove_artifact_prevented (w : World) (l : list Artifact) :
  prevented (flat_map (remove_artifact w) l)
  = if devEnv w then map id l else [].
Proof.
  unfold remove_artifact. induction l as [|a l IH]; simpl.
  - destruct (devEnv w); reflexivity.
  - rewrite prevented_app, IH. destruct (devEnv w); reflexivity.
Qed.

Lemma pipelines_prevented (w : World) (configs : Configs)
  (responses : list (Result (list Artifact))) (c : Z) :
  prevented (flat_map fst (fst (pipelines w configs c responses)))
  = if devEnv w
    then map id (fst (fst (filter_artifacts configs c (encountered responses))))
    else [].
Proof.
  revert c. induction responses as [|[l|e] rest IH]; intro c.
  - simpl. destruct (devEnv w); reflexivity.
  - cbn [pipelines pipeline encountered flat_map].
    change (flat_map _ rest) with (encountered rest).
    rewrite filter_artifacts_app. cbv zeta.
    pose proof (filter_artifacts_prevented configs l c) as Hl.
    destruct (filter_artifacts configs c l) as [[k1 c1] ls1] eqn:E1.
    cbn [fst snd] in Hl |- *. specialize (IH c1).
    destruct (pipelines w configs c1 rest) as [ps c2] eqn:E2.
    cbn [fst snd flat_map] in IH |- *.
    rewrite !prevented_app, Hl, remove_artifact_prevented, IH.
    destruct (devEnv w); [now rewrite map_app | reflexivity].
  - cbn [pipelines pipeline encountered flat_map].
    change (flat_map _ rest) with (encountered rest).
    specialize (IH c). destruct (pipelines w configs c rest) as [ps c2] eqn:E2.
    cbn [fst snd flat_map throw app] in IH |- *. exact IH.
Qed.

(** What a fan-out asks to delete and what it spares, in either mode. *)
Lemma fan_out_selection (w : World) (configs : Configs)
  (taggedCommits : option (list string)) (workflowRuns : list WorkflowRun) :
  exists selected : list Artifact,
    (forall dev,
        let trace :=
          fst (fan_out (with_devEnv w dev) configs taggedCommits workflowRuns) in
        deletions trace = (if dev then [] else map id selected) /\
        prevented trace = (if dev then map id selected else [])) /\
    (forall surviving,
        snd (filter_runs configs taggedCommits (moment_now w) workflowRuns)
        = OK surviving ->
        selected = fst (fst (filter_artifacts configs 0
                               (encountered (settled_listings w surviving))))).
Proof.
  destruct (snd (filter_runs configs taggedCommits (moment_now w) workflowRuns))
    as [surviving|e] eqn:Hs.
  - exists (fst (fst (filter_artifacts configs 0
                        (encountered (settled_listings w surviving))))).
    split; [|now intros s [= <-]].
    intro dev. cbv zeta.
    assert (Hs' : snd (filter_runs configs taggedCommits
                         (moment_now (with_devEnv w dev)) workflowRuns)
                  = OK surviving) by exact Hs.
    rewrite (fan_out_trace (with_devEnv w dev) _ _ _ _ Hs').
    pose proof (run_filter_events configs taggedCommits (moment_now w)
                  workflowRuns) as S1.
    pose proof (listing_events configs surviving) as S2.
    change (settled_listings (with_devEnv w dev) surviving)
      with (settled_listings w surviving).
    destruct (pipelines_scan (with_devEnv w dev) configs
                (settled_listings w surviving) 0) as (_ & _ & _ & _ & P5).
    pose proof (pipelines_prevented (with_devEnv w dev) configs
                  (settled_listings w surviving) 0) as P6.
    cbn [devEnv with_devEnv] in P5, P6.
    rewrite !deletions_app, !prevented_app, P5, P6.
    change (moment_now (with_devEnv w dev)) with (moment_now w).
    unfold deletions at 1 2 3, prevented at 1 2 3.
    rewrite !(flat_map_quiet _ _ _ S1), !(flat_map_quiet _ _ _ S2),
      !(flat_map_quiet _ _ _ (delete_reports _ _)); try no_contribution.
    cbn [app]. now rewrite !app_nil_r.
  - exists []. split; [|intros s; discriminate].
    intro dev. cbv zeta. unfold fan_out.
    change (moment_now (with_devEnv w dev)) with (moment_now w).
    rewrite (bind_snd_throw _ _ _ Hs). cbn [fst].
    pose proof (run_filter_events configs taggedCommits (moment_now w)
                  workflowRuns) as S1.
    unfold deletions, prevented.
    rewrite !(flat_map_quiet _ _ _ S1); try no_contribution.
    destruct dev; split; reflexivity.
Qed.

(** X6: the development mode sends no deletion request and logs, for
    exactly the artifacts production would ask to delete and in the same
    order, that their removal was prevented; production logs no such
    line. *)
Theorem dev_mode_reports_production_deletions (w : World) (configs : Configs)
  (taggedCommits : option (list string)) (workflowRuns : list WorkflowRun) :
  let dev :=
    fst (fan_out (with_devEnv w true) configs taggedCommits workflowRuns) in
  let production :=
    fst (fan_out (with_devEnv w false) configs taggedCommits workflowRuns) in
  deletions dev = [] /\
  prevented production = [] /\
  prevented dev = deletions production.
Proof.
  cbv zeta.
  destruct (fan_out_selection w configs taggedCommits workflowRuns)
    as (selected & Hmode & _).
  destruct (Hmode true) as [D1 P1]. destruct (Hmode false) as [D2 P2].
  cbv zeta in *. now rewrite D1, P1, D2, P2.
Qed.

Lemma with_devEnv_same (w : World) : with_devEnv w (devEnv w) = w.
Proof. destruct w; reflexivity. Qed.

Lemma fan_out_dev (w : World) (configs : Configs)
  (taggedCommits : option (list string)) (workflowRuns : list WorkflowRun) :
  devEnv w = true ->
  deletions (fst (fan_out w configs taggedCommits workflowRuns)) = [] /\
  forall answer,
    fan_out (with_deleteArtifact w answer) configs taggedCommits workflowRuns
    = fan_out w configs taggedCommits workflowRuns.
Proof.
  intros Hdev. split.
  - destruct (fan_out_selection w configs taggedCommits workflowRuns)
      as (selected & Hmode & _).
    destruct (Hmode true) as [D _]. cbv zeta in D.
    rewrite <- Hdev, with_devEnv_same in D. exact D.
  - intro answer. unfold fan_out.
    change (moment_now (with_deleteArtifact w answer)) with (moment_now w).
    destruct (filter_runs configs taggedCommits (moment_now w) workflowRuns)
      as [evs [surviving|e]]; [|reflexivity].
    rewrite !bind_ok. cbn [fst snd].
    change (settle_order (with_deleteArtifact w answer))
      with (settle_order w).
    change (listWorkflowRunArtifacts (with_deleteArtifact w answer))
      with (listWorkflowRunArtifacts w).
    rewrite pipelines_deleteArtifact.
    destruct (pipelines w configs 0 _) as [ps c].
    assert (Hmap : map (delete_promise (with_deleteArtifact w answer))
                     (started_deletions ps)
                   = map (delete_promise w) (started_deletions ps)).
    { apply map_ext. intro a. unfold delete_promise.
      cbn [devEnv with_deleteArtifact]. now rewrite Hdev. }
    now rewrite Hmap.
Qed.

(** X5: in development mode the invocation never turns to the platform
    for a deletion: it runs the same whatever the platform would answer,
    its trace holds no deletion request and no report of a failed
    deletion. *)
Theorem dev_mode_never_deletes (w : World) :
  devEnv w = true ->
  (forall answer, run (with_deleteArtifact w answer) = run w) /\
  deletions (fst (run w)) = [] /\
  delete_errors (fst (run w)) = [].
Proof.
  intros Hdev.
  assert (Hdel : deletions (fst (run w)) = []).
  { rewrite run_unfold.
    pose proof (early_stages_quiet _ (getConfigs_events w)) as (Q0 & _).
    destruct (getConfigs w) as [evs0 [configs|e]]; cbn [fst] in *; [|exact Q0].
    pose proof (early_stages_quiet _ (tag_stage_events w configs)) as (Q1 & _).
    destruct (tag_stage w configs) as [evs1 [taggedCommits|e]];
      cbn [fst] in *; [|now rewrite deletions_app, Q0, Q1].
    pose proof (early_stages_quiet _
      (paginate_runs_events (perPage configs + 200) (branchToConsider configs)
         (moment_now w) (workflowRunPages w) 0)) as (Q2 & _).
    fold (list_runs w configs) in Q2.
    destruct (list_runs w configs) as [evs2 [workflowRuns|e]];
      cbn [fst] in *; rewrite !deletions_app, Q0, Q1, Q2; [|reflexivity].
    apply (fan_out_dev w configs taggedCommits workflowRuns Hdev). }
  split; [|split; [exact Hdel|]].
  - intro answer. rewrite (run_unfold w), run_unfold.
    change (getConfigs (with_deleteArtifact w answer)) with (getConfigs w).
    destruct (getConfigs w) as [evs0 [configs|e]]; [|reflexivity].
    change (tag_stage (with_deleteArtifact w answer) configs)
      with (tag_stage w configs).
    destruct (tag_stage w configs) as [evs1 [taggedCommits|e]]; [|reflexivity].
    change (list_runs (with_deleteArtifact w answer) configs)
      with (list_runs w configs).
    destruct (list_runs w configs) as [evs2 [workflowRuns|e]]; [|reflexivity].
    now rewrite (proj2 (fan_out_dev w configs taggedCommits workflowRuns Hdev)).
  - rewrite (proj2 (run_deletions w)), Hdel. reflexivity.
Qed.

Lemma dev_mode_never_deletes_witness :
  deletions (fst (run (MoreSamples.dev_world (Some "30 days")))) = [] /\
  prevented (fst (run (MoreSamples.dev_world (Some "30 days")))) = [1; 3; 4; 6].
Proof.
  split.
  - apply (dev_mode_never_deletes (MoreSamples.dev_world (Some "30 days"))).
    reflexivity.
  - reflexivity.
Defined.

(** ** What is deleted, for every recent-skip count *)

Lemma filter_artifacts_kept (configs : Configs) (l : list Artifact) (c : Z)
  (a : Artifact) :
  In a (fst (fst (filter_artifacts configs c l))) ->
  In a l /\ older_than_cutoff configs a = true.
Proof.
  revert c. induction l as [|b l IH]; intro c; cbn [filter_artifacts].
  - intros [].
  - unfold artifact_filter.
    destruct (skipRecentArtifact configs c).
    + specialize (IH (c + 1)).
      destruct (filter_artifacts configs (c + 1) l) as [[k c'] ls].
      cbn [fst snd] in *. intros H. destruct (IH H). split; [now right|auto].
    + specialize (IH c).
      destruct (filter_artifacts configs c l) as [[k c'] ls].
      cbn [fst snd] in *.
      destruct (isBefore (created_at b) (maxAge configs)) eqn:Hold.
      * intros [<-|H]; [split; [now left | exact Hold]|].
        destruct (IH H). split; [now right|auto].
      * intros H. destruct (IH H). split; [now right|auto].
Qed.

(** The runs that pass the run filter are among the runs given, are not
    too old and are not tagged. *)
Lemma filter_runs_sound (configs : Configs) (taggedCommits : option (list string))
  (now : instant) (workflowRuns surviving : list WorkflowRun) (r : WorkflowRun) :
  snd (filter_runs configs taggedCommits now workflowRuns) = OK surviving ->
  In r surviving ->
  In r workflowRuns /\ isTooOld now r = false /\
  skipTaggedWorkflow configs taggedCommits r = OK false.
Proof.
  revert surviving. induction workflowRuns as [|r0 runs IH]; intros surviving.
  - cbn. intros [= <-] [].
  - cbn [filter_runs]. unfold run_filter, lift, emit, ret.
    destruct (filter_runs configs taggedCommits now runs) as [evs [more|e]].
    + specialize (IH more eq_refl).
      destruct (skipTaggedWorkflow configs taggedCommits r0) as [[|]|e] eqn:Htag;
        [| |discriminate].
      * cbn [bind fst snd]. intros [= <-] Hin.
        destruct (IH Hin) as (H1 & H2 & H3). repeat split; auto. now right.
      * destruct (isTooOld now r0) eqn:Hold; cbn [bind fst snd].
        -- intros [= <-] Hin.
           destruct (IH Hin) as (H1 & H2 & H3). repeat split; auto. now right.
        -- intros [= <-] [<-|Hin]; [repeat split; auto; now left|].
           destruct (IH Hin) as (H1 & H2 & H3). repeat split; auto. now right.
    + destruct (skipTaggedWorkflow configs taggedCommits r0) as [[|]|e'];
        [| |discriminate].
      * cbn [bind fst snd]. discriminate.
      * destruct (isTooOld now r0); cbn [bind fst snd]; discriminate.
Qed.

(** X7: when every listing that was requested settles once, then
    whatever the recent-skip count is, every deletion request of a fan-out
    is for an artifact that the listing of a run that passed the run filter
    returned (a run among those enumerated, not too old and not tagged when
    skip-tags is set), and that was created strictly before the cutoff. *)
Theorem only_old_listed_artifacts_are_deleted (w : World) (configs : Configs)
  (taggedCommits : option (list string))
  (workflowRuns surviving : list WorkflowRun) (d : Z) :
  settles_each_once w ->
  snd (filter_runs configs taggedCommits (moment_now w) workflowRuns)
  = OK surviving ->
  In d (deletions (fst (fan_out w configs taggedCommits workflowRuns))) ->
  exists r l a,
    In r surviving /\
    In r workflowRuns /\
    isTooOld (moment_now w) r = false /\
    skipTaggedWorkflow configs taggedCommits r = OK false /\
    listWorkflowRunArtifacts w (run_id r) = OK l /\
    In a l /\
    id a = d /\
    created_at a < maxAge configs.
Proof.
  intros Hsettle Hs Hd.
  destruct (fan_out_digests w configs taggedCommits workflowRuns surviving Hs)
    as (_ & _ & D3 & _).
  destruct (pipelines_scan w configs (settled_listings w surviving) 0)
    as (_ & _ & _ & _ & P5).
  rewrite D3, P5 in Hd. destruct (devEnv w); [destruct Hd|].
  apply in_map_iff in Hd as (a & Hid & Hin).
  apply filter_artifacts_kept in Hin as [Hin Hold].
  unfold encountered, settled_listings in Hin.
  apply in_flat_map in Hin as (response & Hresp & Ha).
  apply in_map_iff in Hresp as (r & Hr & Hrin).
  destruct response as [l|e]; [|destruct Ha].
  apply (Permutation_in _ (Hsettle surviving)) in Hrin.
  destruct (filter_runs_sound _ _ _ _ _ r Hs Hrin) as (H1 & H2 & H3).
  exists r, l, a. repeat split; auto. now apply Z.ltb_lt.
Qed.

Lemma only_old_listed_artifacts_are_deleted_witness :
  exists r l a,
    In r [Sample.recent_run] /\
    In r [Sample.recent_run] /\
    isTooOld Sample.now r = false /\
    skipTaggedWorkflow (Sample.configs 3) None r = OK false /\
    listWorkflowRunArtifacts (Sample.five_world "3") (run_id r) = OK l /\
    In a l /\ id a = 4 /\ created_at a < 70 * Sample.day.
Proof.
  exact (only_old_listed_artifacts_are_deleted (Sample.five_world "3")
           (Sample.configs 3) None [Sample.recent_run] [Sample.recent_run] 4
           (fun runs => Permutation_refl runs) eq_refl (or_introl eq_refl)).
Defined.

(** The filter when the rule applies below a threshold [K], as far as the
    counter can get while the list lasts. *)
Lemma filter_artifacts_threshold (configs : Configs) (K M : nat) :
  (forall c, (c < M)%nat ->
             skipRecentArtifact configs (Z.of_nat c) = (c <? K)%nat) ->
  forall (l : list Artifact) (c : nat),
    (c + List.length l <= M)%nat ->
    filter_artifacts configs (Z.of_nat c) l =
    (filter (older_than_cutoff configs) (skipn (K - c) l),
     Z.of_nat (c + Nat.min (K - c) (List.length l)),
     map skip_line (firstn (K - c) l)
     ++ map (filter_line configs) (skipn (K - c) l)).
Proof.
  intros Hrule. induction l as [|a l IH]; intros c Hc.
  - simpl. rewrite skipn_nil, firstn_nil, Nat.min_0_r, Nat.add_0_r.
    reflexivity.
  - cbn [List.length] in Hc. cbn [filter_artifacts]. unfold artifact_filter.
    rewrite Hrule by lia.
    destruct (Nat.ltb_spec c K) as [Hlt|Hge].
    + replace (Z.of_nat c + 1) with (Z.of_nat (S c)) by lia.
      rewrite IH by lia.
      replace (K - c)%nat with (S (K - S c)) by lia.
      cbn [skipn firstn map List.length app Nat.min].
      rewrite <- Nat.add_succ_comm. reflexivity.
    + rewrite IH by lia.
      replace (K - c)%nat with 0%nat by lia.
      replace (K - S c)%nat with 0%nat by lia.
      cbn [skipn firstn map List.length app Nat.min filter].
      rewrite Nat.add_0_r.
      change (isBefore (created_at a) (maxAge configs))
        with (older_than_cutoff configs a).
      change (LogFiltering (id a) (name a) (created_at a)
                (older_than_cutoff configs a)) with (filter_line configs a).
      destruct (older_than_cutoff configs a); reflexivity.
Qed.

Lemma ceiling_spec (q : Q) (c : Z) :
  c * Zpos (Qden q) < Qnum q <-> c < ceiling q.
Proof.
  unfold ceiling. set (d := Zpos (Qden q)). set (n := Qnum q).
  assert (Hd : 0 < d) by (subst d; lia).
  split; intro H.
  - assert (c + 1 <= (n + d - 1) / d); [|lia].
    apply Z.div_le_lower_bound; [exact Hd | nia].
  - destruct (Z.lt_ge_cases (c * d) n) as [Hlt|Hge]; [exact Hlt|].
    assert ((n + d - 1) / d < c + 1); [|lia].
    apply Z.div_lt_upper_bound; [exact Hd | nia].
Qed.

Lemma skip_budget_bound (n : Js.number) (total : nat) :
  (skip_budget n total <= total)%nat.
Proof. destruct n as [|q|[|]]; simpl; lia. Qed.

(** The rule applies exactly below the budget. *)
Lemma skipRecentArtifact_skip_budget (configs : Configs) (total c : nat) :
  (c < total)%nat ->
  skipRecentArtifact configs (Z.of_nat c)
  = (c <? skip_budget (skipRecent configs) total)%nat.
Proof.
  intros Hc. unfold skipRecentArtifact, skip_budget.
  destruct (skipRecent configs) as [|q|[|]]; cbn [Js.number_truthy Js.gt_int].
  - reflexivity.
  - pose proof (ceiling_spec q (Z.of_nat c)) as Hceil.
    destruct (Nat.ltb_spec c (Nat.min (Z.to_nat (ceiling q)) total))
      as [Hlt|Hge].
    + assert (Hpos : Z.of_nat c * Zpos (Qden q) < Qnum q)
        by (apply Hceil; lia).
      apply andb_true_iff. split.
      * apply negb_true_iff, Z.eqb_neq. nia.
      * now apply Z.ltb_lt.
    + apply andb_false_iff. right. apply Z.ltb_ge.
      destruct (Z.lt_ge_cases (Z.of_nat c * Zpos (Qden q)) (Qnum q))
        as [Hlt|Hle]; [|lia].
      apply Hceil in Hlt. lia.
  - reflexivity.
  - cbn [negb andb]. symmetry. now apply Nat.ltb_lt.
Qed.

(** The fan-out for an arbitrary recent-skip count. *)
Lemma fan_out_skip_budget (w : World) (configs : Configs)
  (taggedCommits : option (list string))
  (workflowRuns surviving : list WorkflowRun) :
  snd (filter_runs configs taggedCommits (moment_now w) workflowRuns)
  = OK surviving ->
  let all := encountered (settled_listings w surviving) in
  let trace := fst (fan_out w configs taggedCommits workflowRuns) in
  let B := skip_budget (skipRecent configs) (List.length all) in
  recent_skips trace = map id (firstn B all) /\
  age_checks trace
  = map (fun a => (id a, older_than_cutoff configs a)) (skipn B all) /\
  deletions trace
  = (if devEnv w then []
     else map id (filter (older_than_cutoff configs) (skipn B all))) /\
  snd (pipelines w configs 0 (settled_listings w surviving)) = Z.of_nat B.
Proof.
  intros Hs. cbv zeta.
  set (all := encountered (settled_listings w surviving)).
  set (B := skip_budget (skipRecent configs) (List.length all)).
  destruct (fan_out_digests w configs taggedCommits workflowRuns surviving Hs)
    as (D1 & D2 & D3 & _).
  destruct (pipelines_scan w configs (settled_listings w surviving) 0)
    as (_ & P0 & P1 & P2 & P3).
  rewrite D1, D2, D3, P0, P1, P2, P3. fold all.
  change 0 with (Z.of_nat 0).
  rewrite (filter_artifacts_threshold configs B (List.length all)
             (fun c Hc => skipRecentArtifact_skip_budget configs _ c Hc)
             all 0%nat (le_n _)).
  cbn [fst snd]. rewrite Nat.sub_0_r, recent_skips_app, age_checks_app.
  destruct (skip_lines_digest (firstn B all)) as [K1 K2].
  destruct (filter_lines_digest configs (skipn B all)) as [F1 F2].
  rewrite K1, K2, F1, F2, app_nil_r. cbn [app Nat.add].
  repeat split.
  f_equal. apply Nat.min_l. apply skip_budget_bound.
Qed.

(** X8: for every value of the recent-skip count the fan-out skips the
    first [B] artifacts it meets and age-checks the others, where [B] is 0
    for NaN, zero and negative counts, every artifact for Infinity, and
    otherwise the count rounded up (as far as there are artifacts); the
    counter ends at [B], and the deletions requested are the artifacts
    after the first [B] that were created before the cutoff. *)
Theorem skip_budget_for_every_count (w : World) (configs : Configs)
  (taggedCommits : option (list string))
  (workflowRuns surviving : list WorkflowRun) :
  snd (filter_runs configs taggedCommits (moment_now w) workflowRuns)
  = OK surviving ->
  let all := encountered (settled_listings w surviving) in
  let trace := fst (fan_out w configs taggedCommits workflowRuns) in
  let B := skip_budget (skipRecent configs) (List.length all) in
  recent_skips trace = map id (firstn B all) /\
  age_checks trace
  = map (fun a => (id a, older_than_cutoff configs a)) (skipn B all) /\
  deletions trace
  = (if devEnv w then []
     else map id (filter (older_than_cutoff configs) (skipn B all))) /\
  snd (pipelines w configs 0 (settled_listings w surviving)) = Z.of_nat B.
Proof.
  exact (fan_out_skip_budget w configs taggedCommits workflowRuns surviving).
Qed.

(** A count of 1.5 lets the rule exclude two artifacts. *)
Lemma skip_budget_for_every_count_witness :
  recent_skips (fst (fan_out (Sample.five_world "1.5")
                       MoreSamples.fractional_configs None
                       [Sample.recent_run])) = [1; 2] /\
  snd (pipelines (Sample.five_world "1.5") MoreSamples.fractional_configs 0
         (settled_listings (Sample.five_world "1.5") [Sample.recent_run])) = 2.
Proof.
  destruct (skip_budget_for_every_count (Sample.five_world "1.5")
              MoreSamples.fractional_configs None
              [Sample.recent_run] [Sample.recent_run] eq_refl)
    as (H1 & _ & _ & H4).
  split; [exact H1 | exact H4].
Defined.

(** ** A listing that fails *)

Lemma encountered_or_empty (responses : list (Result (list Artifact))) :
  encountered (map or_empty responses) = encountered responses.
Proof.
  induction responses as [|[l|e] rest IH]; cbn [map encountered flat_map or_empty];
    [reflexivity| |]; fold (encountered (map or_empty rest));
    fold (encountered rest); now rewrite IH.
Qed.

(** X9: a listing that fails changes nothing in what the other pipelines
    do: the fan-out skips, age-checks and asks to delete the same artifacts
    as it would had that listing come back empty. *)
Theorem failed_listing_spares_other_runs (w : World) (configs : Configs)
  (taggedCommits : option (list string)) (workflowRuns : list WorkflowRun) :
  let patient :=
    with_listings w (fun run => or_empty (listWorkflowRunArtifacts w run)) in
  let trace := fst (fan_out w configs taggedCommits workflowRuns) in
  let trace' := fst (fan_out patient configs taggedCommits workflowRuns) in
  recent_skips trace = recent_skips trace' /\
  age_checks trace = age_checks trace' /\
  deletions trace = deletions trace'.
Proof.
  cbv zeta.
  set (patient :=
         with_listings w (fun run => or_empty (listWorkflowRunArtifacts w run))).
  destruct (snd (filter_runs configs taggedCommits (moment_now w) workflowRuns))
    as [surviving|e] eqn:Hs.
  - assert (Hs' : snd (filter_runs configs taggedCommits (moment_now patient)
                         workflowRuns) = OK surviving) by exact Hs.
    destruct (fan_out_digests w _ _ _ _ Hs) as (D1 & D2 & D3 & _).
    destruct (fan_out_digests patient _ _ _ _ Hs') as (E1 & E2 & E3 & _).
    destruct (pipelines_scan w configs (settled_listings w surviving) 0)
      as (_ & _ & P1 & P2 & P3).
    destruct (pipelines_scan patient configs
                (settled_listings patient surviving) 0)
      as (_ & _ & Q1 & Q2 & Q3).
    rewrite D1, D2, D3, E1, E2, E3, P1, P2, P3, Q1, Q2, Q3.
    assert (Henc : encountered (settled_listings patient surviving)
                   = encountered (settled_listings w surviving)).
    { unfold settled_listings.
      change (settle_order patient) with (settle_order w).
      change (listWorkflowRunArtifacts patient)
        with (fun run => or_empty (listWorkflowRunArtifacts w run)).
      rewrite <- (encountered_or_empty
                    (map (fun r => listWorkflowRunArtifacts w (run_id r))
                       (settle_order w surviving))).
      now rewrite map_map. }
    rewrite Henc. repeat split.
  - unfold fan_out. change (moment_now patient) with (moment_now w).
    rewrite !(bind_snd_throw _ _ _ Hs). repeat split.
Qed.

(** ** Which requests are sent, and in which order *)

Lemma getConfigs_logs (w : World) : Forall config_line (fst (getConfigs w)).
Proof.
  unfold getConfigs.
  repeat (apply bind_events; [|intro]);
    try rewrite readInput_silent;
    repeat match goal with
           | |- context [match ?x with _ => _ end] => destruct x
           end;
    try solve [repeat constructor].
  unfold split_value.
  match goal with |- context [match ?x with _ => _ end] => destruct x end;
    constructor.
Qed.

(** Pages are requested in order, from the first one, none twice. *)
Lemma paginate_runs_requests (per_page : Z) (branch : string) (now : instant)
  (pages : list (Result (list WorkflowRun))) (start : nat) :
  exists k, (k <= List.length pages)%nat /\
            fst (paginate_runs per_page branch now start pages)
            = page_requests per_page branch start k.
Proof.
  revert start. induction pages as [|[data|e] pages IH]; intro start;
    cbn [paginate_runs]; unfold emit, lift.
  - exists 0%nat. split; [lia | reflexivity].
  - rewrite !bind_ok. cbn [fst snd app].
    destruct (stopPagination now data).
    + exists 1%nat. cbn [List.length]. split; [lia | reflexivity].
    + destruct (IH (S start)) as (k & Hk & Hev).
      exists (S k). cbn [List.length]. split; [lia|].
      destruct (paginate_runs per_page branch now (S start) pages)
        as [evs [more|e]]; cbn [fst snd bind ret] in *;
        rewrite ?app_nil_r, Hev; reflexivity.
  - rewrite bind_ok. exists 1%nat. cbn [List.length].
    split; [lia | reflexivity].
Qed.

Lemma page_requests_are_run_requests (per_page : Z) (branch : string)
  (start k : nat) :
  Forall (run_request per_page branch) (page_requests per_page branch start k).
Proof.
  unfold page_requests. apply Forall_forall. intros ev Hin.
  apply in_map_iff in Hin as (page & <- & _). split; reflexivity.
Qed.

(** X12: the pages of runs are requested in order from the first one,
    each at most once and none skipped; when every page is served and none
    holds a too-old run, every page is requested and all their runs are
    returned, in the order served. *)
Theorem pagination_is_sequential (w : World) (configs : Configs) :
  (exists k, (k <= List.length (workflowRunPages w))%nat /\
             fst (list_runs w configs)
             = page_requests (perPage configs + 200)
                 (branchToConsider configs) 0 k) /\
  (forall pages,
      workflowRunPages w = map OK pages ->
      Forall (fun p => has_too_old (moment_now w) p = false) pages ->
      list_runs w configs
      = (page_requests (perPage configs + 200) (branchToConsider configs) 0
           (List.length pages),
         OK (List.concat pages))).
Proof.
  split.
  - apply paginate_runs_requests.
  - intros pages Hpages Hclean. unfold list_runs. rewrite Hpages.
    rewrite <- (app_nil_r (map OK pages)).
    rewrite (paginate_runs_clean _ _ _ _ _ _ Hclean). cbv zeta.
    cbn [paginate_runs ret fst snd]. now rewrite !app_nil_r.
Qed.

Lemma pagination_is_sequential_witness :
  list_runs (MoreSamples.world_of "octo/repo") (Sample.configs 0)
  = ([ReqListRuns 300 "master" 0], OK Sample.runs_page1).
Proof.
  apply (proj2 (pagination_is_sequential (MoreSamples.world_of "octo/repo")
                  (Sample.configs 0)) [Sample.runs_page1]).
  - reflexivity.
  - repeat constructor.
Defined.

Lemma requests_app (l1 l2 : list Event) :
  requests (l1 ++ l2) = requests l1 ++ requests l2.
Proof. apply filter_app. Qed.

Lemma requests_quiet (Q : Event -> Prop) (evs : list Event) :
  Forall Q evs -> (forall ev, Q ev -> is_request ev = false) ->
  requests evs = [].
Proof.
  intros HQ Hq. induction HQ as [|ev evs Hev _ IH]; [reflexivity|].
  unfold requests in *. cbn [filter]. now rewrite (Hq ev Hev).
Qed.

Lemma pipeline_requests (evs : list Event) :
  Forall pipeline_event evs ->
  requests evs = map ReqDeleteArtifact (deletions evs).
Proof.
  intros H. induction H as [|ev evs Hev _ IH]; [reflexivity|].
  unfold requests, deletions in *. cbn [filter flat_map].
  destruct ev; try destruct Hev; cbn [is_request app map]; now rewrite IH.
Qed.

Lemma listing_requests (configs : Configs) (runs : list WorkflowRun) :
  requests (flat_map (request_artifacts configs) runs)
  = map (fun r => ReqListArtifacts (perPage configs) (run_id r)) runs.
Proof.
  induction runs as [|r runs IH]; [reflexivity|].
  cbn [flat_map request_artifacts app map]. unfold requests in *.
  cbn [filter is_request]. now rewrite IH.
Qed.

(** X11: the requests of a fan-out are the artifact listing of every
    surviving run, in the order of the runs, and after all of them the
    deletions; it sends nothing else. *)
Theorem listings_are_requested_before_deletions (w : World) (configs : Configs)
  (taggedCommits : option (list string))
  (workflowRuns surviving : list WorkflowRun) :
  snd (filter_runs configs taggedCommits (moment_now w) workflowRuns)
  = OK surviving ->
  let trace := fst (fan_out w configs taggedCommits workflowRuns) in
  requests trace
  = map (fun r => ReqListArtifacts (perPage configs) (run_id r)) surviving
    ++ map ReqDeleteArtifact (deletions trace).
Proof.
  intros Hs. cbv zeta.
  destruct (fan_out_digests w configs taggedCommits workflowRuns surviving Hs)
    as (_ & _ & D3 & _).
  rewrite D3, (fan_out_trace w _ _ _ _ Hs), !requests_app.
  rewrite (requests_quiet _ _ (run_filter_events _ _ _ _)) by no_contribution.
  rewrite (requests_quiet _ _ (delete_reports _ _)) by no_contribution.
  rewrite listing_requests, (pipeline_requests _ (pipeline_events _ _ _ _)).
  cbn [app]. now rewrite app_nil_r.
Qed.

Lemma listings_are_requested_before_deletions_witness :
  requests (fst (fan_out (Sample.world "30 days" "" "") (Sample.configs 0)
                   None Sample.runs_page1))
  = [ReqListArtifacts 100 11; ReqListArtifacts 100 12;
     ReqDeleteArtifact 1; ReqDeleteArtifact 3; ReqDeleteArtifact 4].
Proof.
  exact (listings_are_requested_before_deletions
           (Sample.world "30 days" "" "") (Sample.configs 0) None
           Sample.runs_page1 Sample.runs_page1 eq_refl).
Defined.

Lemma tag_requests_app (l1 l2 : list Event) :
  tag_requests (l1 ++ l2) = tag_requests l1 ++ tag_requests l2.
Proof. apply flat_map_app. Qed.

Lemma fan_out_tag_requests (w : World) (configs : Configs)
  (taggedCommits : option (list string)) (workflowRuns : list WorkflowRun) :
  tag_requests (fst (fan_out w configs taggedCommits workflowRuns)) = [].
Proof.
  pose proof (run_filter_events configs taggedCommits (moment_now w)
                workflowRuns) as S1.
  destruct (snd (filter_runs configs taggedCommits (moment_now w) workflowRuns))
    as [surviving|e] eqn:Hs.
  - rewrite (fan_out_trace w _ _ _ _ Hs), !tag_requests_app.
    unfold tag_requests.
    rewrite (flat_map_quiet _ _ _ S1),
      (flat_map_quiet _ _ _ (listing_events configs surviving)),
      (flat_map_quiet _ _ _ (pipeline_events w configs _ 0)),
      (flat_map_quiet _ _ _ (delete_reports w _)); try no_contribution.
    reflexivity.
  - unfold fan_out. rewrite (bind_snd_throw _ _ _ Hs). cbn [fst].
    apply (flat_map_quiet _ _ _ S1). no_contribution.
Qed.

(** X10: the tags are listed exactly when skip-tags resolved to true, and
    then once, with page size 100; when that listing fails the error is
    logged and the invocation ends with it before any page of runs is
    requested. *)
Theorem tags_are_listed_only_to_skip (w : World) (configs : Configs) :
  snd (getConfigs w) = OK configs ->
  tag_requests (fst (run w))
  = (if option_truthy (skipTags configs) then [100] else []) /\
  (forall e,
      option_truthy (skipTags configs) = true ->
      listTags w = Throw e ->
      run w = (fst (getConfigs w) ++ [ReqListTags 100; LogTagsError e],
               Throw e)).
Proof.
  intros Hok.
  destruct (getConfigs_inversion w configs Hok) as (i & _ & Hcfg).
  assert (Hpage : perPage configs = 100) by now rewrite Hcfg.
  pose proof (getConfigs_logs w) as L0.
  rewrite run_unfold.
  destruct (getConfigs w) as [evs0 r]; cbn [fst snd] in *; subst r.
  assert (Q0 : tag_requests evs0 = [])
    by (apply (flat_map_quiet _ _ _ L0); no_contribution).
  unfold tag_stage, getTaggedCommits, emit, lift. rewrite Hpage.
  destruct (option_truthy (skipTags configs)); split.
  - rewrite bind_ok. cbn [fst snd].
    destruct (listTags w) as [tags|e]; cbn [bind ret fst snd app].
    + destruct (paginate_runs_requests (perPage configs + 200)
                  (branchToConsider configs) (moment_now w)
                  (workflowRunPages w) 0) as (k & _ & Hev).
      fold (list_runs w configs) in Hev.
      pose proof (page_requests_are_run_requests (perPage configs + 200)
                    (branchToConsider configs) 0 k) as L2.
      rewrite <- Hev in L2.
      assert (Q2 : tag_requests (fst (list_runs w configs)) = [])
        by (apply (flat_map_quiet _ _ _ L2); no_contribution).
      destruct (list_runs w configs) as [evs2 [workflowRuns|e]];
        cbn [fst snd] in *; rewrite tag_requests_app, Q0;
        change (tag_requests (ReqListTags 100 :: ?l))
          with (100 :: tag_requests l);
        rewrite ?tag_requests_app, Q2, ?fan_out_tag_requests; reflexivity.
    + now rewrite tag_requests_app, Q0.
  - intros e _ He. rewrite bind_ok, He. reflexivity.
  - cbn [ret app].
    destruct (paginate_runs_requests (perPage configs + 200)
                (branchToConsider configs) (moment_now w)
                (workflowRunPages w) 0) as (k & _ & Hev).
    fold (list_runs w configs) in Hev.
    pose proof (page_requests_are_run_requests (perPage configs + 200)
                  (branchToConsider configs) 0 k) as L2.
    rewrite <- Hev in L2.
    assert (Q2 : tag_requests (fst (list_runs w configs)) = [])
      by (apply (flat_map_quiet _ _ _ L2); no_contribution).
    destruct (list_runs w configs) as [evs2 [workflowRuns|e]];
      cbn [fst snd] in *; rewrite !tag_requests_app, Q0, Q2;
      rewrite ?fan_out_tag_requests; reflexivity.
  - intros e Hfalse. discriminate Hfalse.
Qed.

Lemma tags_are_listed_only_to_skip_witness :
  tag_requests (fst (run (Sample.world "30 days" "" "1"))) = [] /\
  run MoreSamples.broken_tags_world
  = ([LogMaxAge "30" (Some "days") (70 * Sample.day);
      ReqListTags 100; LogTagsError Sample.http_error],
     Throw Sample.http_error).
Proof.
  split.
  - exact (proj1 (tags_are_listed_only_to_skip
                    (Sample.world "30 days" "" "1") _ eq_refl)).
  - exact (proj2 (tags_are_listed_only_to_skip
                    MoreSamples.broken_tags_world _ eq_refl)
             Sample.http_error eq_refl eq_refl).
Defined.

Lemma fan_out_sized (w : World) (configs : Configs)
  (taggedCommits : option (list string)) (workflowRuns : list WorkflowRun) :
  perPage configs = 100 ->
  Forall sized_as_fixed (fst (fan_out w configs taggedCommits workflowRuns)).
Proof.
  intros Hpage.
  assert (L1 : Forall sized_as_fixed
                 (fst (filter_runs configs taggedCommits (moment_now w)
                         workflowRuns))).
  { generalize (run_filter_events configs taggedCommits (moment_now w)
                  workflowRuns).
    apply Forall_impl. intros [] H; solve [destruct H | exact I]. }
  destruct (snd (filter_runs configs taggedCommits (moment_now w) workflowRuns))
    as [surviving|e] eqn:Hs.
  - rewrite (fan_out_trace w _ _ _ _ Hs), !Forall_app.
    split; [exact L1|]. split; [|split].
    + apply Forall_forall. intros ev Hin.
      apply in_flat_map in Hin as (r & _ & [<-|[<-|[]]]);
        [exact I | exact Hpage].
    + generalize (pipeline_events w configs (settled_listings w surviving) 0).
      apply Forall_impl. intros [] H; solve [destruct H | exact I].
    + generalize (delete_reports w (started_deletions
        (fst (pipelines w configs 0 (settled_listings w surviving))))).
      apply Forall_impl. intros [] H; solve [destruct H | exact I].
  - unfold fan_out. rewrite (bind_snd_throw _ _ _ Hs). exact L1.
Qed.

(** X13: every listing an invocation requests has the size and the branch
    the script fixes: tags and artifacts by pages of 100, runs by pages of
    300 on branch "master", whatever the inputs are. *)
Theorem requests_have_fixed_sizes (w : World) :
  Forall sized_as_fixed (fst (run w)).
Proof.
  rewrite run_unfold.
  assert (L0 : Forall sized_as_fixed (fst (getConfigs w))).
  { generalize (getConfigs_logs w). apply Forall_impl.
    intros [] H; solve [destruct H | exact I]. }
  destruct (getConfigs w) as [evs0 [configs|e]] eqn:Hcfg; [|exact L0].
  assert (Hok : snd (getConfigs w) = OK configs) by now rewrite Hcfg.
  destruct (getConfigs_inversion w configs Hok) as (i & _ & Hc).
  assert (Hpage : perPage configs = 100) by now rewrite Hc.
  assert (Hbranch : branchToConsider configs = "master") by now rewrite Hc.
  assert (L1 : Forall sized_as_fixed (fst (tag_stage w configs))).
  { unfold tag_stage, getTaggedCommits, emit, lift.
    destruct (option_truthy (skipTags configs)); [|constructor].
    rewrite bind_ok. destruct (listTags w); repeat constructor; exact Hpage. }
  assert (L2 : Forall sized_as_fixed (fst (list_runs w configs))).
  { destruct (paginate_runs_requests (perPage configs + 200)
                (branchToConsider configs) (moment_now w)
                (workflowRunPages w) 0) as (k & _ & Hev).
    unfold list_runs. rewrite Hev.
    generalize (page_requests_are_run_requests (perPage configs + 200)
                  (branchToConsider configs) 0 k).
    apply Forall_impl. intros [] H; try destruct H. subst.
    split; [now rewrite Hpage | exact Hbranch]. }
  cbn [fst] in L0.
  destruct (tag_stage w configs) as [evs1 [taggedCommits|e]]; cbn [fst] in L1;
    [|now apply Forall_app].
  destruct (list_runs w configs) as [evs2 [workflowRuns|e]];
    cbn [fst] in L2 |- *; rewrite !Forall_app; repeat split; auto.
  now apply fan_out_sized.
Qed.

(** X14: with a configuration that [getConfigs] returned, both throttle
    handlers always answer that the request is to be retried, after
    printing what happened and the delay. *)
Theorem throttled_requests_are_retried (w : World) (configs : Configs)
  (retryAfter : Z) (options : RequestOptions) :
  snd (getConfigs w) = OK configs ->
  onRateLimit configs retryAfter options
  = ([QuotaExhausted (method options) (url options) (retryCount options);
      RetryingAfter retryAfter], true) /\
  onAbuseLimit configs retryAfter options
  = ([AbuseDetected (method options) (url options) (retryCount options);
      RetryingAfter retryAfter], true).
Proof.
  intros Hok.
  destruct (getConfigs_inversion w configs Hok) as (i & _ & ->).
  split; reflexivity.
Qed.

Lemma throttled_requests_are_retried_witness :
  snd (onRateLimit (Sample.configs 0) 60 (mkOptions "GET" "/repos" 1)) = true.
Proof.
  pose proof (throttled_requests_are_retried (Sample.world "30 days" "" "")
                (Sample.configs 0) 60 (mkOptions "GET" "/repos" 1) eq_refl)
    as [H _].
  rewrite H. reflexivity.
Defined.

(** ** The stages composed *)

(** X15: an invocation whose configuration, tag stage and run enumeration
    succeed requests the artifact listings of the enumerated runs that are
    neither tagged (with skip-tags set) nor too old, and asks to delete,
    among the artifacts of the listings that succeed and after the ones
    the recent-skip count exempts, those created before the cutoff; in
    development mode it asks for no deletion. *)
Theorem run_deletes_old_artifacts_of_surviving_runs (w : World)
  (configs : Configs) (taggedCommits : option (list string))
  (workflowRuns : list WorkflowRun) :
  snd (getConfigs w) = OK configs ->
  snd (tag_stage w configs) = OK taggedCommits ->
  snd (list_runs w configs) = OK workflowRuns ->
  let surviving :=
    filter (fun r => negb (run_excluded configs (tagged_set taggedCommits)
                             (moment_now w) r)) workflowRuns in
  let all := encountered (settled_listings w surviving) in
  let B := skip_budget (skipRecent configs) (List.length all) in
  listed_runs (fst (run w)) = map run_id surviving /\
  recent_skips (fst (run w)) = map id (firstn B all) /\
  deletions (fst (run w))
  = (if devEnv w then []
     else map id (filter (older_than_cutoff configs) (skipn B all))).
Proof.
  intros Hc Ht Hl. cbv zeta.
  assert (Htags : option_truthy (skipTags configs) = true ->
                  taggedCommits <> None).
  { intros Hskip. pose proof (tag_stage_result _ _ _ Ht) as H.
    rewrite Hskip in H. destruct H as (tags & _ & ->). discriminate. }
  pose proof (filter_runs_spec configs taggedCommits (moment_now w)
                workflowRuns Htags) as Hspec.
  apply (f_equal snd) in Hspec. cbn [snd] in Hspec.
  destruct (fan_out_skip_budget w configs taggedCommits workflowRuns _ Hspec)
    as (B1 & _ & B3 & _).
  destruct (fan_out_digests w configs taggedCommits workflowRuns _ Hspec)
    as (_ & _ & _ & D4).
  pose proof (early_stages_quiet _ (getConfigs_events w))
    as (Q0 & _ & _ & R0 & S0).
  pose proof (early_stages_quiet _ (tag_stage_events w configs))
    as (Q1 & _ & _ & R1 & S1).
  pose proof (early_stages_quiet _
    (paginate_runs_events (perPage configs + 200) (branchToConsider configs)
       (moment_now w) (workflowRunPages w) 0)) as (Q2 & _ & _ & R2 & S2).
  fold (list_runs w configs) in Q2, R2, S2.
  rewrite run_unfold.
  destruct (getConfigs w) as [evs0 r]; cbn [fst snd] in *; subst r.
  destruct (tag_stage w configs) as [evs1 r]; cbn [fst snd] in *; subst r.
  destruct (list_runs w configs) as [evs2 r]; cbn [fst snd] in *; subst r.
  cbn [fst].
  rewrite !listed_runs_app, !recent_skips_app, !deletions_app.
  rewrite Q0, Q1, Q2, R0, R1, R2, S0, S1, S2, D4, B1, B3.
  repeat split.
Qed.

(** Age 30 days, no skipping: of the artifacts of the runs of the last ten
    days, those created more than 30 days ago are deleted. *)
Lemma run_deletes_old_artifacts_of_surviving_runs_witness :
  listed_runs (fst (run (Sample.world "30 days" "" ""))) = [11; 12; 13] /\
  recent_skips (fst (run (Sample.world "30 days" "" ""))) = [] /\
  deletions (fst (run (Sample.world "30 days" "" ""))) = [1; 3; 4; 6].
Proof.
  exact (run_deletes_old_artifacts_of_surviving_runs
           (Sample.world "30 days" "" "") _ None
           (Sample.runs_page1 ++ Sample.runs_page2)
           eq_refl eq_refl eq_refl).
Defined.

(** ** The tokens of the age input *)

(** X16: the age input is cut at its spaces; the first token and the
    second go to the time library and to the log line, and what follows
    the second token is ignored; an input without a space goes to the
    library with undefined units. *)
Theorem age_input_tokens (w : World) (i : Inputs) :
  reads w i ->
  (forall a u,
      lacks " " a = true -> lacks " " u = true ->
      (in_age i = String.append a (String " " u) \/
       exists rest,
         in_age i = String.append a (String " " (String.append u (String " " rest)))) ->
      moment_subtract w (moment_now w) a (Some u) = OK (in_cutoff i) /\
      getConfigs w
      = ([LogMaxAge a (Some u) (in_cutoff i)], OK (configs_of w i))) /\
  (lacks " " (in_age i) = true ->
   moment_subtract w (moment_now w) (in_age i) None = OK (in_cutoff i) /\
   getConfigs w
   = ([LogMaxAge (in_age i) None (in_cutoff i)], OK (configs_of w i))).
Proof.
  intros Hreads.
  pose proof (getConfigs_of_inputs w i Hreads) as Hcfg.
  destruct Hreads as (_ & _ & Hsub & _).
  split.
  - intros a u Ha Hu Hage.
    assert (Htokens : nth 0 (Js.split " " (in_age i)) "" = a /\
                      nth_error (Js.split " " (in_age i)) 1 = Some u).
    { destruct Hage as [-> | (rest & ->)];
        rewrite (split_at_separator " " a _ Ha).
      - now rewrite (split_lacks " " u Hu).
      - now rewrite (split_at_separator " " u rest Hu). }
    destruct Htokens as [H0 H1]. rewrite H0, H1 in Hsub, Hcfg. now split.
  - intros Hl. rewrite (split_lacks " " _ Hl) in Hsub, Hcfg.
    cbn [nth nth_error] in Hsub, Hcfg. now split.
Qed.

Lemma age_input_tokens_witness :
  getConfigs (Sample.world "30 days ago" "" "")
  = ([LogMaxAge "30" (Some "days") (70 * Sample.day)],
     OK (configs_of (Sample.world "30 days ago" "" "")
           (mkInputs "octo/repo" "30 days ago" (70 * Sample.day)
              (Js.Str "") (Js.Str "")))).
Proof.
  assert (Hreads : reads (Sample.world "30 days ago" "" "")
                     (mkInputs "octo/repo" "30 days ago" (70 * Sample.day)
                        (Js.Str "") (Js.Str ""))).
  { unfold reads. repeat split. left. reflexivity. }
  apply (proj1 (age_input_tokens _ _ Hreads) "30" "days");
    [reflexivity | reflexivity |].
  right. exists "ago". reflexivity.
Defined.
